(** * ComparisonChatService (app/services/comparison_chat.py)

    A shallow embedding of the comparison chat service: the agent builder
    [create_agent], the prompt construction of [initialize_components] and the
    three query operations (blocking, websocket push, asynchronous pull).

    The collaborators the service only calls (the ORKG client, the LangChain
    LLM constructors and agent executor, the push transport, the settings)
    are fields of a [World] record; every effect the service performs on them
    is recorded in a chronological trace. *)

From Stdlib Require Import List String Ascii Bool ZArith Lia PeanoNat.
Import ListNotations.
Local Open Scope string_scope.
Local Open Scope list_scope.

(** ** Python values used by the service *)

(** A pandas cell: a missing value or a text. *)
Inductive cell : Type :=
| NaN
| Val (s : string).

(** An insertion-ordered Python [dict]: assigning an existing key keeps its
    position and replaces its value, a new key is appended. *)
Definition dict (K V : Type) : Type := list (K * V).

Module PyDict.
Section WithKey.
Context {V : Type}.

Fixpoint set (k : string) (v : V) (d : dict string V) : dict string V :=
  match d with
  | [] => [(k, v)]
  | (k', v') :: d' =>
    if String.eqb k k' then (k, v) :: d' else (k', v') :: set k v d'
  end.

Fixpoint get (k : string) (d : dict string V) : option V :=
  match d with
  | [] => None
  | (k', v') :: d' => if String.eqb k k' then Some v' else get k d'
  end.

(** [dict(pairs)]: the pairs are assigned from left to right. *)
Definition of_pairs (pairs : list (string * V)) : dict string V :=
  fold_left (fun d kv => set (fst kv) (snd kv) d) pairs [].
End WithKey.
End PyDict.

(** The object returned by [agent.run]: a [str], or any other object with the
    text its [__str__] renders. *)
Inductive PyObject : Type :=
| PyStr (s : string)
| PyOther (rendering : string).

Definition __str__ (o : PyObject) : string :=
  match o with
  | PyStr s => s
  | PyOther r => r
  end.

(** ** pandas.DataFrame *)

Record DataFrame : Type := mkDataFrame {
  index : list string;          (* row labels *)
  columns : list string;        (* column labels *)
  values : list (list cell)     (* row-major cells *)
}.

(** Every DataFrame is rectangular: one row of cells per row label, one cell
    per column label in each row. *)
Definition well_formed (df : DataFrame) : Prop :=
  List.length (values df) = List.length (index df) /\
  Forall (fun r => List.length r = List.length (columns df)) (values df).

Definition column_at (rows : list (list cell)) (j : nat) : list cell :=
  map (fun r => nth j r NaN) rows.

(** [df.T] *)
Definition T (df : DataFrame) : DataFrame :=
  {| index := columns df;
     columns := index df;
     values := map (column_at (values df)) (seq 0 (List.length (columns df))) |}.

(** [Series.to_dict()]: [dict(zip(index, values))]. *)
Definition series_to_dict (labels : list string) (vs : list cell)
  : dict string cell :=
  PyDict.of_pairs (combine labels vs).

(** [df.to_dict()] in the default orientation:
    [{column -> {row label -> cell}}]. *)
Definition to_dict (df : DataFrame) : dict string (dict string cell) :=
  PyDict.of_pairs
    (combine (columns df)
       (map (fun j => series_to_dict (index df) (column_at (values df) j))
          (seq 0 (List.length (columns df))))).

(** ** Exceptions *)

Inductive exn : Type :=
| NotImplementedError (msg : string)
| RaisedBy (collaborator : string) (msg : string).

(** ** Objects the service constructs *)

Inductive WebSocket : Type := websocket_conn (id : nat).
Inductive ConnectionManager : Type := connection_manager (id : nat).

(** [Handlers = Union[AsyncStreamThoughtsAndAnswerHandler,
                      WSStreamThoughtsAndAnswerHandler]] *)
Inductive Handlers : Type :=
| AsyncStreamThoughtsAndAnswerHandler
| WSStreamThoughtsAndAnswerHandler
    (websocket : WebSocket) (ws_manager : ConnectionManager).

Inductive CallbackManager : Type :=
| BaseCallbackManager (handlers : list Handlers)
| AsyncCallbackManager (handlers : list Handlers).

(** The class of an LLM object.  The service calls [ChatOpenAI] or [OpenAI];
    the object a constructor hands back is an instance of the class it
    chooses, which need not be one of the two. *)
Inductive LLMClass : Type :=
| ChatOpenAI
| OpenAI
| OtherLLMClass (name : string).

Record LLM : Type := mkLLM {
  llm_class : LLMClass;
  streaming : bool;
  openai_api_key : string;
  model_name : option string
}.

Definition isinstance (llm : LLM) (c : LLMClass) : bool :=
  match llm_class llm, c with
  | ChatOpenAI, ChatOpenAI | OpenAI, OpenAI => true
  | OtherLLMClass a, OtherLLMClass b => String.eqb a b
  | _, _ => false
  end.

Inductive AgentType : Type := ZERO_SHOT_REACT_DESCRIPTION.

Record JsonSpec : Type := mkJsonSpec {
  dict_ : dict string (dict string cell);
  max_value_length : Z
}.

Record JsonToolkit : Type := mkJsonToolkit { spec : JsonSpec }.

(** An [AgentExecutor] is the record of the builder that made it and of the
    arguments the service passed to that builder. *)
Inductive AgentExecutor : Type :=
| create_custom_pandas_dataframe_agent
    (llm : LLM) (df : DataFrame) (verbose : bool) (agent_type : AgentType)
    (handle_parsing_errors : bool) (include_df_in_prompt : bool)
    (return_intermediate_steps : bool)
    (callback_manager : option CallbackManager)
| create_json_agent
    (llm : LLM) (toolkit : JsonToolkit) (verbose : bool)
    (handle_parsing_errors : bool)
    (callback_manager : option CallbackManager)
    (max_execution_time : Z).

Definition agent_llm (a : AgentExecutor) : LLM :=
  match a with
  | create_custom_pandas_dataframe_agent llm _ _ _ _ _ _ _ => llm
  | create_json_agent llm _ _ _ _ _ => llm
  end.

Definition agent_callback_manager (a : AgentExecutor)
  : option CallbackManager :=
  match a with
  | create_custom_pandas_dataframe_agent _ _ _ _ _ _ _ cm => cm
  | create_json_agent _ _ _ _ cm _ => cm
  end.

(** The [max_execution_time] keyword the service passes, if it passes one. *)
Definition agent_max_execution_time (a : AgentExecutor) : option Z :=
  match a with
  | create_custom_pandas_dataframe_agent _ _ _ _ _ _ _ _ => None
  | create_json_agent _ _ _ _ _ t => Some t
  end.

Definition CHAT_MODELS : list string :=
  [ "gpt-4";
    "gpt-3.5-turbo";
    "gpt-3.5-turbo-16k";
    "gpt-3.5-turbo-0613";
    "gpt-3.5-turbo-16k-0613";
    "gpt-4-32k" ].

(** [model in CHAT_MODELS]; [model] defaults to [None] in the query
    operations, and [None] equals no element of the list. *)
Definition in_CHAT_MODELS (model : option string) : bool :=
  match model with
  | Some m => existsb (String.eqb m) CHAT_MODELS
  | None => false
  end.

(** ** Effects *)

(** What one execution of the reasoning backend produces: the intermediate
    thoughts, in order, and then the final object or an exception. *)
Record BackendRun : Type := mkBackendRun {
  thoughts : list string;
  outcome : exn + PyObject
}.

(** Modelled from the spec: the [Event] of its data model, which the handlers
    of app.services.agents.handlers (not under src/) are called with.  A run
    emits its thoughts and then, unless it fails, exactly one answer. *)
Inductive SinkEvent : Type :=
| Thought (text : string)
| Answer (text : string).

Definition frame_text (f : SinkEvent) : string :=
  match f with
  | Thought s | Answer s => s
  end.

Definition run_events (r : BackendRun) : list SinkEvent :=
  map Thought (thoughts r)
  ++ match outcome r with
     | inl _ => []
     | inr o => [Answer (__str__ o)]
     end.

Inductive event : Type :=
| EvFetch (comparison_id : string)
    (* orkg_client.contributions.compare_dataframe(comparison_id=...) *)
| EvRun (agent : AgentExecutor) (prompt : string)
    (* agent.run(prompt) *)
| EvArun (agent : AgentExecutor) (prompt : string)
    (* await agent.arun(prompt) *)
| EvCreateTask (agent : AgentExecutor) (prompt : string)
    (* asyncio.create_task(agent.arun(prompt)) *)
| EvAwaitTask
    (* await task *)
| EvYield (log : string)
    (* yield log *)
| EvSend (websocket : WebSocket) (ws_manager : ConnectionManager)
    (frame : SinkEvent).
    (* a frame transmitted on the push channel *)

(** A computation: the events it performed, in order, and an exception or a
    value. *)
Definition M (A : Type) : Type := list event * (exn + A).

Definition ret {A} (a : A) : M A := ([], inr a).
Definition raise {A} (e : exn) : M A := ([], inl e).
Definition emit (evs : list event) : M unit := (evs, inr tt).
Definition lift {A} (r : exn + A) : M A := ([], r).

Definition bind {A B} (m : M A) (f : A -> M B) : M B :=
  match m with
  | (t, inl e) => (t, inl e)
  | (t, inr a) => let (t', r) := f a in (t ++ t', r)
  end.

Notation "x <- m ;; k" := (bind m (fun x => k))
  (at level 61, m at next level, right associativity).
Notation "m ;;; k" := (bind m (fun _ => k))
  (at level 61, right associativity).

Definition trace {A} (m : M A) : list event := fst m.
Definition result {A} (m : M A) : exn + A := snd m.

(** ** The world around the service *)

Record Settings : Type := mkSettings {
  OPENAI_API_KEY : string;
  VERBOSE : bool
}.

Record World : Type := mkWorld {
  settings : Settings;
  (** [AgentKind.DATAFRAME.value] and [AgentKind.JSON.value]
      (app.models.chat). *)
  DATAFRAME_value : string;
  JSON_value : string;
  (** The LLM constructors of LangChain: [new_llm c streaming key name] is
      the call [c(streaming=..., openai_api_key=..., model_name=...)], which
      returns an object or raises. *)
  new_llm : LLMClass -> bool -> string -> option string -> exn + LLM;
  (** [ORKG.contributions.compare_dataframe]: a table, or the exception the
      client raises. *)
  compare_dataframe : string -> exn + DataFrame;
  (** The behaviour of the reasoning backend on an agent and a prompt. *)
  execute : AgentExecutor -> string -> BackendRun;
  (** What [AsyncStreamThoughtsAndAnswerHandler.action_logs()] yields, in
      order, over a run whose callbacks the handler receives.  The sequence
      is taken to be finite and to end normally: a handler whose sequence
      never ends or raises is outside this model. *)
  action_logs : BackendRun -> list string;
  (** Modelled from the spec: the push transport, whose [send] answers [ok]
      or [ChannelClosed].  [channel_capacity ws mgr] is the number of frames
      the channel takes before a [send] fails with [ChannelClosed]; [None] if
      it never does. *)
  channel_capacity : WebSocket -> ConnectionManager -> option nat
}.

(** Modelled from the spec: the handlers of app.services.agents.handlers are
    not under src/.  A push handler transmits every event it is called with,
    thoughts and answer alike, on its channel as it occurs; once a [send]
    fails with [ChannelClosed] the rest of the delivery is abandoned, without
    an exception reaching the run.  A pull handler queues the events for
    [action_logs] and transmits nothing. *)
Definition transmitted (capacity : option nat) (evs : list SinkEvent)
  : list SinkEvent :=
  match capacity with
  | None => evs
  | Some n => firstn n evs
  end.

Definition on_events (w : World) (h : Handlers) (evs : list SinkEvent)
  : list event :=
  match h with
  | WSStreamThoughtsAndAnswerHandler ws mgr =>
      map (EvSend ws mgr) (transmitted (channel_capacity w ws mgr) evs)
  | AsyncStreamThoughtsAndAnswerHandler => []
  end.

(** The callbacks an execution fires: every handler of the agent's callback
    manager is called with the events of the run; without a manager nobody
    is called. *)
Definition deliver (w : World) (cm : option CallbackManager)
  (evs : list SinkEvent) : list event :=
  match cm with
  | None => []
  | Some (BaseCallbackManager hs) | Some (AsyncCallbackManager hs) =>
      flat_map (fun h => on_events w h evs) hs
  end.

(** ** The prompt template of [initialize_components] *)

Definition LF : string := String (ascii_of_nat 10) EmptyString.
Definition DQUOTE : string := String (ascii_of_nat 34) EmptyString.
Definition INDENT : string := "            ".

Definition line (text : string) : string := INDENT ++ text ++ LF.

Definition APOLOGY : string := "Sorry!, I do not know.".

Definition PROMPT_TEMPLATE : string :=
  LF
  ++ line "This is a table of data extracted from the ORKG that represents a comparison of several research papers."
  ++ line "The rows are properties of the papers, and the columns are the papers (contributions) themselves."
  ++ LF
  ++ line "The questions will need you to look into the values, sometimes across multiple columns."
  ++ line "The cells could contain multiple values and not just a single value."
  ++ LF
  ++ line "If there is a date in there you might need to parse it to find answers about the year or the month."
  ++ LF
  ++ line "If you do not know the answer, reply as follows:"
  ++ line (DQUOTE ++ APOLOGY ++ DQUOTE)
  ++ LF
  ++ line "Return all output as a string."
  ++ LF
  ++ line "Lets think step by step."
  ++ LF
  ++ line "Below is the query."
  ++ line "Query:"
  ++ INDENT.

(** [needle in haystack] on strings. *)
Fixpoint contains (needle haystack : string) : bool :=
  if String.prefix needle haystack then true
  else match haystack with
       | EmptyString => false
       | String _ rest => contains needle rest
       end.

(** ** ComparisonChatService *)

Section ComparisonChatService.
Variable w : World.

(** Lines 82-89: the stream handler and the callback manager it is wrapped
    in. *)
Definition bind_handler (async_agent : bool)
  (websocket : option WebSocket) (ws_manager : option ConnectionManager)
  : Handlers * option CallbackManager :=
  match websocket, ws_manager with
  | Some ws, Some mgr =>
      let stream_handler := WSStreamThoughtsAndAnswerHandler ws mgr in
      (stream_handler, Some (BaseCallbackManager [stream_handler]))
  | _, _ =>
      let stream_handler := AsyncStreamThoughtsAndAnswerHandler in
      let handler_manager := Some (AsyncCallbackManager [stream_handler]) in
      (stream_handler, if negb async_agent then None else handler_manager)
  end.

(** Lines 91-101: the LLM class, and the call of its constructor, which
    returns the LLM object or raises. *)
Definition llm_model (model : option string) : LLMClass :=
  if in_CHAT_MODELS model then ChatOpenAI else OpenAI.

Definition make_llm (model : option string) : exn + LLM :=
  new_llm w (llm_model model) true (OPENAI_API_KEY (settings w)) model.

(** Lines 103-105: the call to the ORKG client. *)
Definition fetch (comparison_id : string) : M DataFrame :=
  emit [EvFetch comparison_id] ;;; lift (compare_dataframe w comparison_id).

Definition create_agent (comparison_id : string) (model : option string)
  (agent_kind : string) (async_agent : bool)
  (websocket : option WebSocket) (ws_manager : option ConnectionManager)
  : M (AgentExecutor * Handlers) :=
  let '(stream_handler, handler_manager) :=
    bind_handler async_agent websocket ws_manager in
  llm <- lift (make_llm model) ;;
  fetched <- fetch comparison_id ;;
  let comparison := T fetched in
  if String.eqb agent_kind (DATAFRAME_value w) then
    ret (create_custom_pandas_dataframe_agent
           llm comparison (VERBOSE (settings w))
           ZERO_SHOT_REACT_DESCRIPTION true true false handler_manager,
         stream_handler)
  else if String.eqb agent_kind (JSON_value w) then
    let json_spec :=
      {| dict_ := to_dict (T comparison);
         max_value_length :=
           (if negb (isinstance llm ChatOpenAI) then 4000 else 13000)%Z |} in
    let json_toolkit := {| spec := json_spec |} in
    ret (create_json_agent
           llm json_toolkit (VERBOSE (settings w)) true handler_manager 1%Z,
         stream_handler)
  else
    raise (NotImplementedError ("Unknown agent kind: " ++ agent_kind)).

Definition initialize_agent (comparison_id : string) (model : option string)
  (agent_kind : string) (async_agent : bool)
  (websocket : option WebSocket) (ws_manager : option ConnectionManager)
  : M (AgentExecutor * Handlers) :=
  create_agent comparison_id model agent_kind async_agent
    websocket ws_manager.

Definition initialize_components (comparison_id query : string)
  (model : option string) (agent_kind : string) (async_agent : bool)
  (websocket : option WebSocket) (ws_manager : option ConnectionManager)
  : M (AgentExecutor * string * Handlers) :=
  ah <- initialize_agent comparison_id model agent_kind async_agent
          websocket ws_manager ;;
  let prompt := (PROMPT_TEMPLATE ++ query)%string in
  ret (fst ah, prompt, snd ah).

(** [agent.run(prompt)] and [await agent.arun(prompt)]: the backend runs to
    completion, its callbacks fire as its events occur, and its final object
    is returned or its exception raised. *)
Definition run (agent : AgentExecutor) (prompt : string) : M PyObject :=
  let r := execute w agent prompt in
  emit (EvRun agent prompt
          :: deliver w (agent_callback_manager agent) (run_events r)) ;;;
  lift (outcome r).

Definition arun (agent : AgentExecutor) (prompt : string) : M PyObject :=
  let r := execute w agent prompt in
  emit (EvArun agent prompt
          :: deliver w (agent_callback_manager agent) (run_events r)) ;;;
  lift (outcome r).

Definition query_agent (comparison_id query : string)
  (model : option string) (agent_kind : string) : M string :=
  c <- initialize_components comparison_id query model agent_kind false
         None None ;;
  let '(agent, prompt, _) := c in
  response <- run agent prompt ;;
  ret (__str__ response).

Definition query_agent_ws (comparison_id query : string)
  (websocket : WebSocket) (ws_manager : ConnectionManager)
  (model : option string) (agent_kind : string) : M string :=
  c <- initialize_components comparison_id query model agent_kind false
         (Some websocket) (Some ws_manager) ;;
  let '(agent, prompt, _) := c in
  response <- arun agent prompt ;;
  ret (__str__ response).
End ComparisonChatService.

(** ** [query_agent_async]: an asynchronous generator

    Calling an [async def] whose body contains [yield] runs none of its body:
    it returns a generator object.  Each [__anext__] of the consumer resumes
    the body up to the next [yield], to its end ([StopAsyncIteration]) or to
    an exception. *)

Inductive AsyncGenerator : Type :=
| GenCreated (comparison_id query : string) (model : option string)
    (agent_kind : string)
    (* the body has not started *)
| GenSuspended (task : BackendRun) (pending : list string)
    (* suspended at [yield log]; [pending] is what [action_logs] has yet to
       give *)
| GenClosed.
    (* the body returned or raised *)

Inductive Resumption : Type :=
| Yielded (log : string)
| StopAsyncIteration
| Raised (e : exn).

Section PullDelivery.
Variable w : World.

Definition query_agent_async (comparison_id query : string)
  (model : option string) (agent_kind : string) : M AsyncGenerator :=
  ret (GenCreated comparison_id query model agent_kind).

(** Lines 169-172, from the head of the [async for] loop on. *)
Definition relay (task : BackendRun) (pending : list string)
  : list event * Resumption * AsyncGenerator :=
  match pending with
  | log :: rest => ([EvYield log], Yielded log, GenSuspended task rest)
  | [] =>
      ([EvAwaitTask],
       match outcome task with
       | inl e => Raised e
       | inr _ => StopAsyncIteration
       end,
       GenClosed)
  end.

Definition anext (g : AsyncGenerator)
  : list event * Resumption * AsyncGenerator :=
  match g with
  | GenCreated comparison_id query model agent_kind =>
      match initialize_components w comparison_id query model agent_kind
              true None None with
      | (t, inl e) => (t, Raised e, GenClosed)
      | (t, inr (agent, prompt, stream_handler)) =>
          let task := execute w agent prompt in
          let callbacks :=
            deliver w (agent_callback_manager agent) (run_events task) in
          let '(t', r, g') := relay task (action_logs w task) in
          (t ++ EvCreateTask agent prompt :: callbacks ++ t', r, g')
      end
  | GenSuspended task pending => relay task pending
  | GenClosed => ([], StopAsyncIteration, GenClosed)
  end.

(** What a consumer that pulls at most [pulls] times has seen. *)
Record Drained : Type := mkDrained {
  performed : list event;
  received : list string;
  ending : option Resumption   (* [None]: the consumer stopped pulling *)
}.

Fixpoint drain (pulls : nat) (g : AsyncGenerator) : Drained :=
  match pulls with
  | O => mkDrained [] [] None
  | S n =>
      let '(t, r, g') := anext g in
      match r with
      | Yielded log =>
          let d := drain n g' in
          mkDrained (t ++ performed d) (log :: received d) (ending d)
      | _ => mkDrained t [] (Some r)
      end
  end.
End PullDelivery.

(** ** Observations on traces *)

Definition is_fetch (ev : event) : bool :=
  match ev with EvFetch _ => true | _ => false end.

Definition is_backend_call (ev : event) : bool :=
  match ev with
  | EvRun _ _ | EvArun _ _ | EvCreateTask _ _ => true
  | _ => false
  end.

Definition fetches (t : list event) : nat := List.length (filter is_fetch t).

Definition backend_calls (t : list event) : nat :=
  List.length (filter is_backend_call t).

(** The prompts handed to the backend, in order. *)
Fixpoint prompts_of (t : list event) : list string :=
  match t with
  | [] => []
  | (EvRun _ p | EvArun _ p | EvCreateTask _ p) :: t' => p :: prompts_of t'
  | _ :: t' => prompts_of t'
  end.

(** The texts that reached a caller or a channel, in order. *)
Fixpoint exposed (t : list event) : list string :=
  match t with
  | [] => []
  | EvYield s :: t' => s :: exposed t'
  | EvSend _ _ f :: t' => frame_text f :: exposed t'
  | _ :: t' => exposed t'
  end.

Definition is_unsupported {A} (r : exn + A) : bool :=
  match r with
  | inl (NotImplementedError _) => true
  | _ => false
  end.

(** ** A concrete world *)

Module Sample.
Definition table : DataFrame :=
  {| index := ["method"];
     columns := ["Paper A"; "Paper B"];
     values := [[Val "BERT"; Val "CRF"]] |}.

(** LLM constructors that want a model name: without one they raise; called
    as [OpenAI] with the name of a chat model they return an object of the
    chat wrapper class instead. *)
Definition constructors (c : LLMClass) (streaming : bool) (key : string)
  (name : option string) : exn + LLM :=
  match name with
  | None =>
      inl (RaisedBy "langchain"
             "AttributeError: 'NoneType' object has no attribute 'startswith'")
  | Some n =>
      let chat_name :=
        String.prefix "gpt-3.5-turbo" n || String.prefix "gpt-4" n in
      let c' :=
        match c with
        | OpenAI => if chat_name then OtherLLMClass "OpenAIChat" else OpenAI
        | _ => c
        end in
      inr {| llm_class := c';
             streaming := streaming;
             openai_api_key := key;
             model_name := name |}
  end.

Definition world : World :=
  {| settings := {| OPENAI_API_KEY := "sk-test"; VERBOSE := false |};
     DATAFRAME_value := "dataframe";
     JSON_value := "json";
     new_llm := constructors;
     compare_dataframe := fun _ => inr table;
     execute := fun _ _ =>
       {| thoughts := ["I should look at the method row"];
          outcome := inr (PyStr "BERT and CRF") |};
     action_logs := fun r => thoughts r;
     channel_capacity := fun _ _ => None |}.

(** The same world with a backend that fails after one thought. *)
Definition failing_world : World :=
  {| settings := settings world;
     DATAFRAME_value := DATAFRAME_value world;
     JSON_value := JSON_value world;
     new_llm := constructors;
     compare_dataframe := compare_dataframe world;
     execute := fun _ _ =>
       {| thoughts := ["I should look at the method row"];
          outcome := inl (RaisedBy "backend" "rate limit") |};
     action_logs := action_logs world;
     channel_capacity := channel_capacity world |}.

(** The same world with a backend that emits no thought. *)
Definition quiet_world : World :=
  {| settings := settings world;
     DATAFRAME_value := DATAFRAME_value world;
     JSON_value := JSON_value world;
     new_llm := constructors;
     compare_dataframe := compare_dataframe world;
     execute := fun _ _ =>
       {| thoughts := []; outcome := inr (PyStr "BERT and CRF") |};
     action_logs := action_logs world;
     channel_capacity := channel_capacity world |}.

(** The same world with a push channel that is closed from the start. *)
Definition closed_channel_world : World :=
  {| settings := settings world;
     DATAFRAME_value := DATAFRAME_value world;
     JSON_value := JSON_value world;
     new_llm := constructors;
     compare_dataframe := compare_dataframe world;
     execute := execute world;
     action_logs := action_logs world;
     channel_capacity := fun _ _ => Some 0 |}.

Definition ws : WebSocket := websocket_conn 7.
Definition mgr : ConnectionManager := connection_manager 0.
End Sample.

(** ** Further observations, used to state the properties *)

Definition agent_toolkit (a : AgentExecutor) : option JsonToolkit :=
  match a with
  | create_custom_pandas_dataframe_agent _ _ _ _ _ _ _ _ => None
  | create_json_agent _ toolkit _ _ _ _ => Some toolkit
  end.

Definition agent_dataframe (a : AgentExecutor) : option DataFrame :=
  match a with
  | create_custom_pandas_dataframe_agent _ df _ _ _ _ _ _ => Some df
  | create_json_agent _ _ _ _ _ _ => None
  end.

(** The value a computation ends with: the failure of the backend is
    re-raised, its final object is rendered with [__str__]. *)
Definition answer_of (r : BackendRun) : exn + string :=
  match outcome r with
  | inl e => inl e
  | inr o => inr (__str__ o)
  end.

Definition is_ok {A} (r : exn + A) : bool :=
  match r with
  | inl _ => false
  | inr _ => true
  end.

(** How the pull generator ends once the task is awaited. *)
Definition ending_of (r : BackendRun) : Resumption :=
  match outcome r with
  | inl e => Raised e
  | inr _ => StopAsyncIteration
  end.

(** Two worlds that differ at most in the thoughts their backends emit, in
    what their pull handlers yield and in their push channels. *)
Definition same_but_thoughts (w w' : World) : Prop :=
  settings w = settings w' /\
  DATAFRAME_value w = DATAFRAME_value w' /\
  JSON_value w = JSON_value w' /\
  (forall c s k m, new_llm w c s k m = new_llm w' c s k m) /\
  (forall c, compare_dataframe w c = compare_dataframe w' c) /\
  (forall a p, outcome (execute w a p) = outcome (execute w' a p)).

(** ** Observations for the further properties *)

(** The frames transmitted on push channels, in order. *)
Fixpoint sent_frames (t : list event) : list SinkEvent :=
  match t with
  | [] => []
  | EvSend _ _ f :: t' => f :: sent_frames t'
  | _ :: t' => sent_frames t'
  end.

(** The cell in row [i] and column [j], by position. *)
Definition cell_at (df : DataFrame) (i j : nat) : cell :=
  nth j (nth i (values df) []) NaN.

(** The agent with its callback manager taken away. *)
Definition without_callbacks (a : AgentExecutor) : AgentExecutor :=
  match a with
  | create_custom_pandas_dataframe_agent llm df v ty hp inc ret_steps _ =>
      create_custom_pandas_dataframe_agent llm df v ty hp inc ret_steps None
  | create_json_agent llm toolkit v hp _ t =>
      create_json_agent llm toolkit v hp None t
  end.

(** A world whose ORKG client cannot reach the comparison. *)
Module Offline.
Definition world : World :=
  {| settings := settings Sample.world;
     DATAFRAME_value := DATAFRAME_value Sample.world;
     JSON_value := JSON_value Sample.world;
     new_llm := new_llm Sample.world;
     compare_dataframe := fun _ => inl (RaisedBy "orkg" "connection refused");
     execute := execute Sample.world;
     action_logs := action_logs Sample.world;
     channel_capacity := channel_capacity Sample.world |}.
End Offline.

(** * Properties *)

(** ** Lists and tables *)

Lemma map_nth_seq_id {A} (d : A) (l : list A) :
  map (fun j => nth j l d) (seq 0 (List.length l)) = l.
Proof.
  apply nth_ext with (d := d) (d' := d).
  - now rewrite length_map, length_seq.
  - intros n Hn. rewrite length_map, length_seq in Hn.
    rewrite (nth_indep _ d (nth 0 l d)) by now rewrite length_map, length_seq.
    rewrite (map_nth (fun j => nth j l d) (seq 0 (List.length l)) 0 n).
    now rewrite seq_nth.
Qed.

Lemma column_at_columns (rows : list (list cell)) (n i : nat) :
  column_at (map (column_at rows) (seq 0 n)) i
  = map (fun j => nth j (nth i rows []) NaN) (seq 0 n).
Proof.
  unfold column_at at 1. rewrite map_map. apply map_ext. intros j.
  unfold column_at.
  pose proof (map_nth (fun r : list cell => nth j r NaN) rows [] i) as E.
  cbv beta in E. rewrite <- E. now destruct j.
Qed.

Lemma T_well_formed (df : DataFrame) : well_formed df -> well_formed (T df).
Proof.
  intros [Hrows _]. split; cbn.
  - now rewrite length_map, length_seq.
  - apply Forall_forall. intros r Hr. apply in_map_iff in Hr.
    destruct Hr as [j [<- _]]. unfold column_at. now rewrite length_map.
Qed.

(** Transposing twice gives the table back, for a rectangular table. *)
Lemma T_involutive (df : DataFrame) : well_formed df -> T (T df) = df.
Proof.
  destruct df as [idx cols rows]. unfold well_formed, T. cbn.
  intros [Hrows Hcols]. f_equal.
  rewrite <- Hrows.
  transitivity (map (fun i => nth i rows []) (seq 0 (List.length rows))).
  - apply map_ext_in. intros i Hi. apply in_seq in Hi.
    rewrite column_at_columns.
    assert (Hlen : List.length (nth i rows []) = List.length cols).
    { rewrite Forall_forall in Hcols. apply Hcols, nth_In. lia. }
    rewrite <- Hlen. apply map_nth_seq_id.
  - apply map_nth_seq_id.
Qed.

(** ** The agent builder, in closed form *)

Lemma create_agent_eq (w : World) comparison_id model agent_kind async_agent
  websocket ws_manager :
  create_agent w comparison_id model agent_kind async_agent
    websocket ws_manager
  = match make_llm w model with
    | inl e => ([], inl e)
    | inr llm =>
        ([EvFetch comparison_id],
         match compare_dataframe w comparison_id with
         | inl e => inl e
         | inr fetched =>
             let stream_handler :=
               fst (bind_handler async_agent websocket ws_manager) in
             let handler_manager :=
               snd (bind_handler async_agent websocket ws_manager) in
             if String.eqb agent_kind (DATAFRAME_value w) then
               inr (create_custom_pandas_dataframe_agent
                      llm (T fetched) (VERBOSE (settings w))
                      ZERO_SHOT_REACT_DESCRIPTION true true false
                      handler_manager,
                    stream_handler)
             else if String.eqb agent_kind (JSON_value w) then
               inr (create_json_agent llm
                      {| spec :=
                           {| dict_ := to_dict (T (T fetched));
                              max_value_length :=
                                (if isinstance llm ChatOpenAI
                                 then 13000 else 4000)%Z
                           |} |}
                      (VERBOSE (settings w)) true handler_manager 1%Z,
                    stream_handler)
             else inl (NotImplementedError
                         ("Unknown agent kind: " ++ agent_kind))
         end)
    end.
Proof.
  unfold create_agent, fetch, bind, emit, lift, ret, raise.
  destruct (bind_handler async_agent websocket ws_manager) as [h cm].
  destruct (make_llm w model) as [e | llm]; [reflexivity |].
  destruct (compare_dataframe w comparison_id) as [e | fetched]; cbn;
    [reflexivity |].
  destruct (String.eqb agent_kind (DATAFRAME_value w)); [reflexivity |].
  destruct (String.eqb agent_kind (JSON_value w)); [| reflexivity].
  now destruct (isinstance llm ChatOpenAI).
Qed.


Lemma create_agent_success (w : World) comparison_id model agent_kind
  async_agent websocket ws_manager agent handler :
  result (create_agent w comparison_id model agent_kind async_agent
            websocket ws_manager) = inr (agent, handler) ->
  handler = fst (bind_handler async_agent websocket ws_manager) /\
  agent_callback_manager agent
  = snd (bind_handler async_agent websocket ws_manager) /\
  make_llm w model = inr (agent_llm agent).
Proof.
  rewrite create_agent_eq. unfold result.
  destruct (make_llm w model) as [e | llm]; cbn; [discriminate |].
  destruct (compare_dataframe w comparison_id) as [e | fetched];
    [discriminate |].
  destruct (String.eqb agent_kind (DATAFRAME_value w)).
  - intros [= <- <-]. now cbn.
  - destruct (String.eqb agent_kind (JSON_value w)); [| discriminate].
    intros [= <- <-]. now cbn.
Qed.

(** A builder that returns has made exactly one fetch; one that raises has
    made at most one. *)
Lemma create_agent_trace (w : World) comparison_id model agent_kind async_agent
  websocket ws_manager :
  trace (create_agent w comparison_id model agent_kind async_agent
           websocket ws_manager)
  = if is_ok (make_llm w model) then [EvFetch comparison_id] else [].
Proof.
  rewrite create_agent_eq. now destruct (make_llm w model).
Qed.

Lemma create_agent_trace_built (w : World) comparison_id model agent_kind
  async_agent websocket ws_manager built :
  result (create_agent w comparison_id model agent_kind async_agent
            websocket ws_manager) = inr built ->
  trace (create_agent w comparison_id model agent_kind async_agent
           websocket ws_manager) = [EvFetch comparison_id].
Proof.
  rewrite create_agent_eq. unfold result, trace.
  destruct (make_llm w model); [discriminate | reflexivity].
Qed.

Lemma initialize_components_eq (w : World) comparison_id query model
  agent_kind async_agent websocket ws_manager :
  initialize_components w comparison_id query model agent_kind async_agent
    websocket ws_manager
  = (trace (create_agent w comparison_id model agent_kind async_agent
              websocket ws_manager),
     match result (create_agent w comparison_id model agent_kind async_agent
                     websocket ws_manager) with
     | inl e => inl e
     | inr (agent, handler) =>
         inr (agent, (PROMPT_TEMPLATE ++ query)%string, handler)
     end).
Proof.
  unfold initialize_components, initialize_agent, bind, ret, result, trace.
  destruct (create_agent w comparison_id model agent_kind async_agent
              websocket ws_manager) as [t [e | [agent handler]]];
    cbn; now rewrite ?app_nil_r.
Qed.

(** ** Handler binding (lines 82-89) *)

(** C9. Whenever the builder returns, a websocket together with a websocket
    manager gives the push handler inside a synchronous [BaseCallbackManager],
    whatever [async_agent] is.  When one of the two is absent the pull handler
    is returned, inside an [AsyncCallbackManager] if [async_agent] holds and
    with no callback manager at all otherwise; and the pull handler is
    returned in no other case. *)
Theorem handler_binding (w : World) comparison_id model agent_kind
  async_agent websocket ws_manager agent handler :
  result (create_agent w comparison_id model agent_kind async_agent
            websocket ws_manager) = inr (agent, handler) ->
  (forall ws mgr, websocket = Some ws -> ws_manager = Some mgr ->
     handler = WSStreamThoughtsAndAnswerHandler ws mgr /\
     agent_callback_manager agent = Some (BaseCallbackManager [handler])) /\
  (websocket = None \/ ws_manager = None ->
     handler = AsyncStreamThoughtsAndAnswerHandler /\
     agent_callback_manager agent
     = if async_agent then Some (AsyncCallbackManager [handler]) else None) /\
  (handler = AsyncStreamThoughtsAndAnswerHandler ->
     websocket = None \/ ws_manager = None).
Proof.
  intros H. apply create_agent_success in H. destruct H as (Hh & Hcm & _).
  repeat split.
  - subst. now cbn.
  - subst. rewrite Hcm. now cbn.
  - destruct H as [-> | ->]; subst; [| destruct websocket]; reflexivity.
  - rewrite Hcm. subst handler.
    destruct H as [-> | ->]; [| destruct websocket];
      now destruct async_agent.
  - intros E. subst handler.
    destruct websocket, ws_manager; cbn in E; try discriminate; auto.
Qed.

Lemma handler_binding_witness :
  exists agent,
    result (create_agent Sample.world "R1" (Some "gpt-4") "dataframe" true
              (Some Sample.ws) (Some Sample.mgr))
    = inr (agent, WSStreamThoughtsAndAnswerHandler Sample.ws Sample.mgr) /\
    agent_callback_manager agent
    = Some (BaseCallbackManager
              [WSStreamThoughtsAndAnswerHandler Sample.ws Sample.mgr]).
Proof.
  eexists. split; [reflexivity |].
  eapply (handler_binding Sample.world "R1" (Some "gpt-4") "dataframe" true
            (Some Sample.ws) (Some Sample.mgr)); reflexivity.
Defined.

(** ** Model selection (lines 91-101) *)



(** ** The match on the agent kind (lines 107-142) *)

(** C7. Once the LLM object is constructed and the table fetched, the
    builder returns an agent paired with its stream handler exactly for the
    two kinds [DATAFRAME] and [JSON]: the pandas agent for the first, the
    JSON agent for the second, each carrying the constructed LLM and wired to
    the callback manager of the handler binding.  Any other kind returns
    nothing. *)
Theorem create_agent_supported_kinds (w : World) comparison_id model
  agent_kind async_agent websocket ws_manager llm fetched :
  make_llm w model = inr llm ->
  compare_dataframe w comparison_id = inr fetched ->
  ((exists agent,
      result (create_agent w comparison_id model agent_kind async_agent
                websocket ws_manager)
      = inr (agent, fst (bind_handler async_agent websocket ws_manager)) /\
      agent_callback_manager agent
      = snd (bind_handler async_agent websocket ws_manager) /\
      agent_llm agent = llm /\
      (agent_kind = DATAFRAME_value w ->
         agent_dataframe agent = Some (T fetched)) /\
      (agent_kind <> DATAFRAME_value w ->
         exists toolkit, agent_toolkit agent = Some toolkit))
   <-> (agent_kind = DATAFRAME_value w \/ agent_kind = JSON_value w)).
Proof.
  intros Hllm Hfetch. rewrite create_agent_eq, Hllm. unfold result; cbn.
  rewrite Hfetch.
  destruct (String.eqb_spec agent_kind (DATAFRAME_value w)) as [Hd | Hd].
  - split; [auto |]. intros _. eexists. split; [reflexivity |].
    cbn. split; [reflexivity |]. split; [reflexivity |].
    split; intros; [reflexivity | contradiction].
  - destruct (String.eqb_spec agent_kind (JSON_value w)) as [Hj | Hj].
    + split; [auto |]. intros _. eexists. split; [reflexivity |].
      cbn. split; [reflexivity |]. split; [reflexivity |].
      split; intros; [contradiction | eexists; reflexivity].
    + split; [| tauto]. intros [agent [H _]]. discriminate H.
Qed.

Lemma create_agent_supported_kinds_witness :
  exists agent,
    result (create_agent Sample.world "R1" (Some "gpt-4") "json" true
              None None)
    = inr (agent, AsyncStreamThoughtsAndAnswerHandler).
Proof.
  destruct (proj2 (create_agent_supported_kinds Sample.world "R1"
                     (Some "gpt-4") "json" true None None _ Sample.table
                     eq_refl eq_refl) (or_intror eq_refl))
    as [agent [H _]].
  exists agent. exact H.
Defined.

(** The execution budget the builder passes: one second for the JSON agent,
    none for the pandas agent. *)
Lemma json_agent_max_execution_time (w : World) comparison_id model
  agent_kind async_agent websocket ws_manager agent handler :
  result (create_agent w comparison_id model agent_kind async_agent
            websocket ws_manager) = inr (agent, handler) ->
  agent_max_execution_time agent
  = if String.eqb agent_kind (DATAFRAME_value w) then None else Some 1%Z.
Proof.
  rewrite create_agent_eq. unfold result.
  destruct (make_llm w model); cbn; [discriminate |].
  destruct (compare_dataframe w comparison_id); [discriminate |].
  destruct (String.eqb agent_kind (DATAFRAME_value w)).
  - now intros [= <- _].
  - destruct (String.eqb agent_kind (JSON_value w)); [| discriminate].
    now intros [= <- _].
Qed.

(** ** An unsupported agent kind *)

Lemma create_agent_unsupported (w : World) comparison_id model agent_kind
  async_agent websocket ws_manager :
  agent_kind <> DATAFRAME_value w -> agent_kind <> JSON_value w ->
  create_agent w comparison_id model agent_kind async_agent
    websocket ws_manager
  = match make_llm w model with
    | inl e => ([], inl e)
    | inr _ =>
        ([EvFetch comparison_id],
         inl match compare_dataframe w comparison_id with
             | inl e => e
             | inr _ => NotImplementedError
                          ("Unknown agent kind: " ++ agent_kind)
             end)
    end.
Proof.
  intros Hd Hj. rewrite create_agent_eq.
  apply String.eqb_neq in Hd, Hj. cbv zeta. rewrite Hd, Hj.
  destruct (make_llm w model); [reflexivity |].
  now destruct (compare_dataframe w comparison_id).
Qed.

(** ** The blocking and the push query, in closed form *)

Lemma deliver_push (w : World) (ws : WebSocket) (mgr : ConnectionManager)
  (evs : list SinkEvent) :
  deliver w (Some (BaseCallbackManager
                     [WSStreamThoughtsAndAnswerHandler ws mgr])) evs
  = map (EvSend ws mgr) (transmitted (channel_capacity w ws mgr) evs).
Proof. unfold deliver. cbn. apply app_nil_r. Qed.

Lemma deliver_pull (w : World) (evs : list SinkEvent) :
  deliver w (Some (AsyncCallbackManager
                     [AsyncStreamThoughtsAndAnswerHandler])) evs = [].
Proof. reflexivity. Qed.

Lemma query_agent_eq (w : World) comparison_id query model agent_kind :
  query_agent w comparison_id query model agent_kind
  = match result (create_agent w comparison_id model agent_kind false
                    None None) with
    | inl e =>
        (trace (create_agent w comparison_id model agent_kind false
                  None None), inl e)
    | inr (agent, _) =>
        let prompt := (PROMPT_TEMPLATE ++ query)%string in
        ([EvFetch comparison_id; EvRun agent prompt],
         answer_of (execute w agent prompt))
    end.
Proof.
  unfold query_agent. rewrite initialize_components_eq.
  destruct (result (create_agent w comparison_id model agent_kind false
                      None None)) as [e | [agent handler]] eqn:E;
    [reflexivity |].
  rewrite (create_agent_trace_built _ _ _ _ _ _ _ _ E).
  apply create_agent_success in E. destruct E as (_ & Hcm & _).
  cbv zeta. generalize (PROMPT_TEMPLATE ++ query)%string. intros prompt.
  unfold bind, run, emit, lift, ret, answer_of. rewrite Hcm. cbn.
  now destruct (outcome (execute w agent prompt)).
Qed.

Lemma query_agent_ws_eq (w : World) comparison_id query ws mgr model
  agent_kind :
  query_agent_ws w comparison_id query ws mgr model agent_kind
  = match result (create_agent w comparison_id model agent_kind false
                    (Some ws) (Some mgr)) with
    | inl e =>
        (trace (create_agent w comparison_id model agent_kind false
                  (Some ws) (Some mgr)), inl e)
    | inr (agent, _) =>
        let prompt := (PROMPT_TEMPLATE ++ query)%string in
        let r := execute w agent prompt in
        (EvFetch comparison_id :: EvArun agent prompt
           :: map (EvSend ws mgr)
                (transmitted (channel_capacity w ws mgr) (run_events r)),
         answer_of r)
    end.
Proof.
  unfold query_agent_ws. rewrite initialize_components_eq.
  destruct (result (create_agent w comparison_id model agent_kind false
                      (Some ws) (Some mgr))) as [e | [agent handler]] eqn:E;
    [reflexivity |].
  rewrite (create_agent_trace_built _ _ _ _ _ _ _ _ E).
  apply create_agent_success in E. destruct E as (_ & Hcm & _).
  cbv zeta. generalize (PROMPT_TEMPLATE ++ query)%string. intros prompt.
  unfold bind, arun, emit, lift, ret, answer_of. rewrite Hcm.
  cbn [bind_handler snd]. rewrite deliver_push. cbn.
  destruct (outcome (execute w agent prompt));
    now rewrite ?app_nil_r.
Qed.

(** ** The pull query, in closed form *)

Lemma anext_created_failed (w : World) comparison_id query model agent_kind
  e :
  result (create_agent w comparison_id model agent_kind true None None)
  = inl e ->
  anext w (GenCreated comparison_id query model agent_kind)
  = (trace (create_agent w comparison_id model agent_kind true None None),
     Raised e, GenClosed).
Proof.
  intros E. unfold anext. rewrite initialize_components_eq, E. reflexivity.
Qed.

Lemma anext_created_built (w : World) comparison_id query model agent_kind
  agent handler :
  result (create_agent w comparison_id model agent_kind true None None)
  = inr (agent, handler) ->
  anext w (GenCreated comparison_id query model agent_kind)
  = let prompt := (PROMPT_TEMPLATE ++ query)%string in
    let '(t, r, g) :=
      relay (execute w agent prompt)
        (action_logs w (execute w agent prompt)) in
    (EvFetch comparison_id :: EvCreateTask agent prompt :: t, r, g).
Proof.
  intros E. unfold anext. rewrite initialize_components_eq.
  rewrite (create_agent_trace_built _ _ _ _ _ _ _ _ E), E.
  apply create_agent_success in E. destruct E as (_ & Hcm & _).
  rewrite Hcm. cbn [bind_handler snd negb]. rewrite deliver_pull.
  cbv zeta. generalize (PROMPT_TEMPLATE ++ query)%string. intros prompt.
  now destruct (relay (execute w agent prompt)
                  (action_logs w (execute w agent prompt))) as [[t r] g].
Qed.

Lemma drain_created_failed (w : World) comparison_id query model agent_kind
  e pulls :
  result (create_agent w comparison_id model agent_kind true None None)
  = inl e ->
  drain w (S pulls) (GenCreated comparison_id query model agent_kind)
  = mkDrained
      (trace (create_agent w comparison_id model agent_kind true None None))
      [] (Some (Raised e)).
Proof.
  intros E. cbn [drain]. now rewrite (anext_created_failed _ _ _ _ _ _ E).
Qed.

Lemma drain_created_built (w : World) comparison_id query model agent_kind
  agent handler pulls :
  result (create_agent w comparison_id model agent_kind true None None)
  = inr (agent, handler) ->
  let prompt := (PROMPT_TEMPLATE ++ query)%string in
  let d := drain w (S pulls)
             (GenSuspended (execute w agent prompt)
                (action_logs w (execute w agent prompt))) in
  drain w (S pulls) (GenCreated comparison_id query model agent_kind)
  = mkDrained (EvFetch comparison_id :: EvCreateTask agent prompt
                 :: performed d)
      (received d) (ending d).
Proof.
  intros E. cbv zeta. cbn [drain].
  rewrite (anext_created_built _ _ _ _ _ _ _ E). cbv zeta. cbn [anext].
  generalize (PROMPT_TEMPLATE ++ query)%string. intros prompt.
  destruct (relay (execute w agent prompt)
              (action_logs w (execute w agent prompt))) as [[t r] g].
  now destruct r.
Qed.

Lemma drain_suspended (w : World) (task : BackendRun) (pending : list string) :
  forall pulls,
    drain w pulls (GenSuspended task pending)
    = if Nat.leb pulls (List.length pending) then
        mkDrained (map EvYield (firstn pulls pending))
          (firstn pulls pending) None
      else
        mkDrained (map EvYield pending ++ [EvAwaitTask]) pending
          (Some (ending_of task)).
Proof.
  induction pending as [| log rest IH]; intros [| n]; try reflexivity.
  - cbn. unfold ending_of. now destruct (outcome task).
  - cbn [drain anext relay]. rewrite IH.
    cbn [List.length firstn map]. change (Nat.leb (S n) (S (List.length rest)))
      with (Nat.leb n (List.length rest)).
    now destruct (Nat.leb n (List.length rest)).
Qed.

Lemma drain_created (w : World) comparison_id query model agent_kind
  agent prompt handler pulls :
  result (initialize_components w comparison_id query model agent_kind
            true None None) = inr (agent, prompt, handler) ->
  let d := drain w (S pulls)
             (GenSuspended (execute w agent prompt)
                (action_logs w (execute w agent prompt))) in
  drain w (S pulls) (GenCreated comparison_id query model agent_kind)
  = mkDrained (EvFetch comparison_id :: EvCreateTask agent prompt
                 :: performed d)
      (received d) (ending d).
Proof.
  intros Hinit d. subst d.
  rewrite initialize_components_eq in Hinit. unfold result in Hinit at 1.
  cbn [snd] in Hinit.
  destruct (result (create_agent w comparison_id model agent_kind true
                      None None)) as [e | [a h]] eqn:E; [discriminate |].
  pose proof (drain_created_built w comparison_id query model agent_kind
                a h pulls E) as Hd.
  cbv zeta in Hd.
  set (p := (PROMPT_TEMPLATE ++ query)%string) in *. clearbody p.
  injection Hinit as Ha Hp Hh. subst a p h. exact Hd.
Qed.

(** ** An unsupported agent kind, as the code treats it *)

(** C1, as the code has it.  For an agent kind other than [DATAFRAME] and
    [JSON]: if the LLM constructor raises, every operation ends with its
    exception and nothing has been fetched.  Otherwise the table is fetched
    first, exactly once, and only then does the operation fail: with
    [NotImplementedError], or with the exception of the fetch if the fetch
    failed.  No operation calls the reasoning backend or delivers
    anything. *)
Theorem unsupported_kind_fails_after_fetch (w : World) comparison_id query
  model agent_kind async_agent websocket ws_manager ws mgr :
  agent_kind <> DATAFRAME_value w -> agent_kind <> JSON_value w ->
  let performed :=
    match make_llm w model with
    | inl _ => []
    | inr _ => [EvFetch comparison_id]
    end in
  let failure :=
    match make_llm w model with
    | inl e => e
    | inr _ =>
        match compare_dataframe w comparison_id with
        | inl e => e
        | inr _ => NotImplementedError ("Unknown agent kind: " ++ agent_kind)
        end
    end in
  create_agent w comparison_id model agent_kind async_agent
    websocket ws_manager = (performed, inl failure) /\
  query_agent w comparison_id query model agent_kind
  = (performed, inl failure) /\
  query_agent_ws w comparison_id query ws mgr model agent_kind
  = (performed, inl failure) /\
  anext w (GenCreated comparison_id query model agent_kind)
  = (performed, Raised failure, GenClosed) /\
  backend_calls performed = 0 /\
  fetches performed = (if is_ok (make_llm w model) then 1 else 0).
Proof.
  intros Hd Hj performed failure.
  assert (Hc : forall a s m,
             create_agent w comparison_id model agent_kind a s m
             = (performed, inl failure)).
  { intros. rewrite create_agent_unsupported by assumption.
    subst performed failure. now destruct (make_llm w model). }
  repeat split.
  - apply Hc.
  - rewrite query_agent_eq, Hc. reflexivity.
  - rewrite query_agent_ws_eq, Hc. reflexivity.
  - rewrite (anext_created_failed w comparison_id query model agent_kind
               failure); now rewrite Hc.
  - subst performed. now destruct (make_llm w model).
  - subst performed. now destruct (make_llm w model).
Qed.

Lemma unsupported_kind_fails_after_fetch_witness :
  query_agent Sample.world "R1" "How many papers?" (Some "gpt-4") "graph"
  = ([EvFetch "R1"], inl (NotImplementedError "Unknown agent kind: graph")).
Proof.
  apply (unsupported_kind_fails_after_fetch Sample.world "R1"
           "How many papers?" (Some "gpt-4") "graph" true None None
           Sample.ws Sample.mgr);
    discriminate.
Defined.

(** C1, as the spec words it, fails: the unsupported kind is reported only
    after the external fetch has been made. *)
Lemma unsupported_kind_fetches_first :
  is_unsupported
    (result (create_agent Sample.world "R1" (Some "gpt-4") "graph" true
               None None))
  = true /\
  fetches
    (trace (create_agent Sample.world "R1" (Some "gpt-4") "graph" true
              None None))
  <> 0.
Proof. split; [reflexivity | discriminate]. Qed.

(** ** The JSON agent's document and truncation length (lines 123-129) *)



(** ** The blocking and the push query (lines 174-240) *)

Lemma answer_of_cases (r : BackendRun) :
  answer_of r
  = match outcome r with
    | inl e => inl e
    | inr (PyStr s) => inr s
    | inr (PyOther rendering) => inr rendering
    end.
Proof.
  unfold answer_of. destruct (outcome r) as [e | [s | s]]; reflexivity.
Qed.

Lemma create_agent_same_but_thoughts (w w' : World) comparison_id model
  agent_kind async_agent websocket ws_manager :
  same_but_thoughts w w' ->
  create_agent w' comparison_id model agent_kind async_agent
    websocket ws_manager
  = create_agent w comparison_id model agent_kind async_agent
      websocket ws_manager.
Proof.
  intros (Hs & Hd & Hj & Hl & Hc & _). rewrite !create_agent_eq.
  unfold make_llm. now rewrite Hs, Hd, Hj, Hl, Hc.
Qed.

(** C5. The blocking query binds no callback manager, so nothing is delivered
    to anyone while the backend runs: its trace is the fetch and the run.  It
    returns the final object of the run as a string, the object itself if it
    is a [str] and its rendering otherwise, or it raises the exception of
    the constructor, of the fetch, of the builder or of the backend.  Its
    whole behaviour is the same in any world whose backend differs only in
    the thoughts it emits. *)
Theorem query_agent_exposes_no_thought (w : World) comparison_id query model
  agent_kind :
  exposed (trace (query_agent w comparison_id query model agent_kind)) = [] /\
  match result (initialize_components w comparison_id query model agent_kind
                  false None None) with
  | inl e =>
      query_agent w comparison_id query model agent_kind
      = (trace (initialize_components w comparison_id query model agent_kind
                  false None None), inl e)
  | inr (agent, prompt, _) =>
      agent_callback_manager agent = None /\
      query_agent w comparison_id query model agent_kind
      = ([EvFetch comparison_id; EvRun agent prompt],
         match outcome (execute w agent prompt) with
         | inl e => inl e
         | inr (PyStr s) => inr s
         | inr (PyOther rendering) => inr rendering
         end)
  end /\
  (forall w', same_but_thoughts w w' ->
     query_agent w' comparison_id query model agent_kind
     = query_agent w comparison_id query model agent_kind).
Proof.
  split; [| split].
  - rewrite query_agent_eq.
    destruct (result (create_agent w comparison_id model agent_kind false
                        None None)) as [e | [agent handler]];
      [| reflexivity].
    unfold trace at 1. cbn [fst]. rewrite create_agent_trace.
    now destruct (is_ok (make_llm w model)).
  - rewrite initialize_components_eq, query_agent_eq. unfold result at 1.
    unfold trace at 1. cbn [snd fst].
    destruct (result (create_agent w comparison_id model agent_kind false
                        None None)) as [e | [agent handler]] eqn:E;
      [reflexivity |].
    apply create_agent_success in E. destruct E as (_ & Hcm & _).
    split; [exact Hcm |]. cbv zeta. now rewrite answer_of_cases.
  - intros w' Hsame. rewrite !query_agent_eq.
    rewrite (create_agent_same_but_thoughts w w') by assumption.
    destruct (result (create_agent w comparison_id model agent_kind false
                        None None)) as [e | [agent handler]];
      [reflexivity |].
    destruct Hsame as (_ & _ & _ & _ & _ & Ho). unfold answer_of.
    now rewrite Ho.
Qed.

Lemma query_agent_exposes_no_thought_witness :
  query_agent Sample.quiet_world "R1" "How many papers?" (Some "gpt-4") "json"
  = query_agent Sample.world "R1" "How many papers?" (Some "gpt-4") "json".
Proof.
  apply (proj2 (proj2 (query_agent_exposes_no_thought Sample.world "R1"
                         "How many papers?" (Some "gpt-4") "json"))).
  repeat split; reflexivity.
Defined.

Lemma sent_frames_sends ws mgr (frames : list SinkEvent) :
  sent_frames (map (EvSend ws mgr) frames) = frames.
Proof.
  induction frames as [| f frames IH]; cbn; [reflexivity | now rewrite IH].
Qed.

(** C8. The push query binds the push handler in a [BaseCallbackManager],
    starts [arun] and awaits it.  While the run goes on, its thoughts and
    then its answer are sent on the channel, in order, up to the first
    [ChannelClosed]; with a channel that stays open all of them are sent by
    the time the call returns.  Whatever the channel does, the call returns
    the final object of the run as a string, the object itself if it is a
    [str] and its rendering otherwise, or raises the exception of the run
    (or of the constructor, the fetch or the builder, before any run). *)
Theorem query_agent_ws_pushes_and_returns (w : World) comparison_id query
  ws mgr model agent_kind :
  match result (initialize_components w comparison_id query model agent_kind
                  false (Some ws) (Some mgr)) with
  | inl e =>
      query_agent_ws w comparison_id query ws mgr model agent_kind
      = (trace (initialize_components w comparison_id query model agent_kind
                  false (Some ws) (Some mgr)), inl e)
  | inr (agent, prompt, handler) =>
      let r := execute w agent prompt in
      let answered :=
        match outcome r with
        | inl _ => []
        | inr (PyStr s) => [Answer s]
        | inr (PyOther rendering) => [Answer rendering]
        end in
      let frames :=
        match channel_capacity w ws mgr with
        | None => map Thought (thoughts r) ++ answered
        | Some n => firstn n (map Thought (thoughts r) ++ answered)
        end in
      handler = WSStreamThoughtsAndAnswerHandler ws mgr /\
      agent_callback_manager agent = Some (BaseCallbackManager [handler]) /\
      query_agent_ws w comparison_id query ws mgr model agent_kind
      = (EvFetch comparison_id :: EvArun agent prompt
           :: map (EvSend ws mgr) frames,
         match outcome r with
         | inl e => inl e
         | inr (PyStr s) => inr s
         | inr (PyOther rendering) => inr rendering
         end) /\
      (channel_capacity w ws mgr = None ->
       sent_frames (trace (query_agent_ws w comparison_id query ws mgr model
                             agent_kind))
       = map Thought (thoughts r) ++ answered)
  end.
Proof.
  rewrite initialize_components_eq, query_agent_ws_eq. unfold result at 1.
  unfold trace at 1. cbn [snd fst].
  destruct (result (create_agent w comparison_id model agent_kind false
                      (Some ws) (Some mgr))) as [e | [agent handler]] eqn:E;
    [reflexivity |].
  apply create_agent_success in E. destruct E as (Hh & Hcm & _).
  cbn in Hh, Hcm. subst handler. cbv zeta.
  generalize (PROMPT_TEMPLATE ++ query)%string. intros prompt.
  assert (Hev : run_events (execute w agent prompt)
                = map Thought (thoughts (execute w agent prompt))
                  ++ match outcome (execute w agent prompt) with
                     | inl _ => []
                     | inr (PyStr s) => [Answer s]
                     | inr (PyOther rendering) => [Answer rendering]
                     end).
  { unfold run_events.
    now destruct (outcome (execute w agent prompt)) as [e | [s | s]]. }
  rewrite Hev, answer_of_cases.
  split; [reflexivity |]. split; [assumption |]. split; [reflexivity |].
  intros Hopen. unfold trace; cbn [fst sent_frames].
  rewrite sent_frames_sends, Hopen. reflexivity.
Qed.

Lemma query_agent_ws_pushes_and_returns_witness :
  sent_frames
    (trace (query_agent_ws Sample.world "R1" "Which methods?"
              Sample.ws Sample.mgr (Some "gpt-4") "json"))
  = [Thought "I should look at the method row"; Answer "BERT and CRF"].
Proof.
  pose proof (query_agent_ws_pushes_and_returns Sample.world "R1"
                "Which methods?" Sample.ws Sample.mgr (Some "gpt-4") "json")
    as H.
  rewrite initialize_components_eq in H.
  destruct H as (_ & _ & _ & H). exact (H eq_refl).
Defined.

(** ** The pull query (lines 144-172) *)

(** C2, as the code has it.  Calling the pull query performs nothing and
    returns the generator.  The first pull fetches the table, builds the
    agent and launches the reasoning task with [create_task]; the consumer
    then receives the logs of the handler in order.  As long as it has pulled
    no more often than there are logs, the task has not been awaited and no
    failure of the task has surfaced.  The pull after the last log awaits the
    task, and it is this pull that raises the task's exception, or ends the
    sequence if the task succeeded. *)
Theorem pull_mode_schedule (w : World) comparison_id query model agent_kind
  agent prompt handler :
  result (initialize_components w comparison_id query model agent_kind
            true None None) = inr (agent, prompt, handler) ->
  let task := execute w agent prompt in
  let logs := action_logs w task in
  let generator := GenCreated comparison_id query model agent_kind in
  query_agent_async comparison_id query model agent_kind
  = ([], inr generator) /\
  (forall pulls : nat, (1 <= pulls <= List.length logs)%nat ->
     drain w pulls generator
     = mkDrained (EvFetch comparison_id :: EvCreateTask agent prompt
                    :: map EvYield (firstn pulls logs))
         (firstn pulls logs) None) /\
  (forall pulls : nat, (List.length logs < pulls)%nat ->
     drain w pulls generator
     = mkDrained (EvFetch comparison_id :: EvCreateTask agent prompt
                    :: map EvYield logs ++ [EvAwaitTask])
         logs (Some (ending_of task))).
Proof.
  intros Hinit task logs generator. split; [reflexivity |].
  split; intros [| n] Hn; try lia;
    unfold generator; rewrite (drain_created _ _ _ _ _ _ _ _ _ Hinit);
    cbv zeta; rewrite drain_suspended; fold task; fold logs.
  - destruct (Nat.leb_spec (S n) (List.length logs)); [reflexivity | lia].
  - destruct (Nat.leb_spec (S n) (List.length logs)); [lia | reflexivity].
Qed.

Lemma pull_mode_schedule_witness :
  exists agent prompt,
    drain Sample.failing_world 2
      (GenCreated "R1" "Which methods?" (Some "gpt-4") "json")
    = mkDrained
        [EvFetch "R1"; EvCreateTask agent prompt;
         EvYield "I should look at the method row"; EvAwaitTask]
        ["I should look at the method row"]
        (Some (Raised (RaisedBy "backend" "rate limit"))).
Proof.
  do 2 eexists.
  apply (proj2 (proj2 (pull_mode_schedule Sample.failing_world "R1"
                         "Which methods?" (Some "gpt-4") "json" _ _ _
                         eq_refl))).
  cbn. lia.
Defined.

(** C2, as the spec words it, fails: when the sequence is handed to the
    caller no reasoning task has been launched. *)
Lemma pull_query_returns_before_launch :
  query_agent_async "R1" "Which methods?" None "json"
  = ([], inr (GenCreated "R1" "Which methods?" None "json")) /\
  backend_calls
    (trace (query_agent_async "R1" "Which methods?" None "json")) = 0.
Proof. split; reflexivity. Qed.

(** ** The prompt (lines 260-281) *)

Lemma prompts_of_app (t t' : list event) :
  prompts_of (t ++ t') = prompts_of t ++ prompts_of t'.
Proof.
  induction t as [| ev t IH]; [reflexivity |].
  destruct ev; cbn; now rewrite IH.
Qed.

Lemma prompts_of_yields (logs : list string) :
  prompts_of (map EvYield logs) = [].
Proof. induction logs; [reflexivity | assumption]. Qed.

Lemma prompts_of_sends ws mgr (frames : list SinkEvent) :
  prompts_of (map (EvSend ws mgr) frames) = [].
Proof. induction frames; [reflexivity | assumption]. Qed.

Lemma prompts_of_drain_suspended (w : World) task pending pulls :
  prompts_of (performed (drain w pulls (GenSuspended task pending))) = [].
Proof.
  rewrite drain_suspended.
  destruct (Nat.leb pulls (List.length pending)); cbn [performed].
  - apply prompts_of_yields.
  - now rewrite prompts_of_app, prompts_of_yields.
Qed.

Lemma prompts_of_create_agent (w : World) comparison_id model agent_kind
  async_agent websocket ws_manager :
  prompts_of (trace (create_agent w comparison_id model agent_kind
                       async_agent websocket ws_manager)) = [].
Proof.
  rewrite create_agent_trace. now destruct (is_ok (make_llm w model)).
Qed.

(** C6. In each of the three query operations the backend is handed one
    prompt, and only once the agent is built: the fixed template with the
    user's query appended, whatever the model, the agent kind and the
    delivery mode are.  The template speaks of cells with multiple values and
    of dates, quotes the apology [Sorry!, I do not know.] and asks for all
    output as a string. *)
Theorem prompt_is_template_plus_query (w : World) comparison_id query model
  agent_kind ws mgr pulls :
  let prompt := (PROMPT_TEMPLATE ++ query)%string in
  let built async_agent websocket ws_manager :=
    is_ok (result (create_agent w comparison_id model agent_kind async_agent
                     websocket ws_manager)) in
  let sent (b : bool) := if b then [prompt] else [] in
  prompts_of (trace (query_agent w comparison_id query model agent_kind))
  = sent (built false None None) /\
  prompts_of (trace (query_agent_ws w comparison_id query ws mgr model
                       agent_kind))
  = sent (built false (Some ws) (Some mgr)) /\
  prompts_of (performed (drain w (S pulls)
                           (GenCreated comparison_id query model agent_kind)))
  = sent (built true None None) /\
  contains "The cells could contain multiple values" PROMPT_TEMPLATE = true /\
  contains "If there is a date" PROMPT_TEMPLATE = true /\
  contains (DQUOTE ++ "Sorry!, I do not know." ++ DQUOTE) PROMPT_TEMPLATE
  = true /\
  contains "Return all output as a string." PROMPT_TEMPLATE = true.
Proof.
  intros prompt built sent. subst built sent.
  split; [| split; [| split]]; cbv beta.
  - rewrite query_agent_eq.
    destruct (result (create_agent w comparison_id model agent_kind false
                        None None)) as [e | [agent handler]];
      [| reflexivity].
    unfold trace at 1. cbn [fst is_ok]. apply prompts_of_create_agent.
  - rewrite query_agent_ws_eq.
    destruct (result (create_agent w comparison_id model agent_kind false
                        (Some ws) (Some mgr))) as [e | [agent handler]].
    + unfold trace at 1. cbn [fst is_ok]. apply prompts_of_create_agent.
    + cbv zeta. unfold trace. cbn [fst prompts_of is_ok].
      now rewrite prompts_of_sends.
  - destruct (result (create_agent w comparison_id model agent_kind true
                        None None)) as [e | [agent handler]] eqn:E.
    + rewrite (drain_created_failed _ _ _ _ _ _ _ E).
      cbn [performed is_ok]. apply prompts_of_create_agent.
    + rewrite (drain_created_built _ _ _ _ _ _ _ _ E). cbv zeta.
      cbn [performed prompts_of is_ok].
      now rewrite prompts_of_drain_suspended.
  - repeat split; vm_compute; reflexivity.
Qed.

(** ** Sample runs *)

Example blocking_run :
  result (query_agent Sample.world "R1" "Which methods?" (Some "gpt-4")
            "dataframe") = inr "BERT and CRF".
Proof. reflexivity. Qed.

Example blocking_run_without_model :
  query_agent Sample.world "R1" "Which methods?" None "dataframe"
  = ([], inl (RaisedBy "langchain"
                "AttributeError: 'NoneType' object has no attribute 'startswith'")).
Proof. reflexivity. Qed.

Example push_run :
  exposed (trace (query_agent_ws Sample.world "R1" "Which methods?"
                    Sample.ws Sample.mgr (Some "gpt-4") "json"))
  = ["I should look at the method row"; "BERT and CRF"].
Proof. reflexivity. Qed.

Example push_run_on_closed_channel :
  sent_frames (trace (query_agent_ws Sample.closed_channel_world "R1"
                        "Which methods?" Sample.ws Sample.mgr (Some "gpt-4")
                        "json")) = [] /\
  result (query_agent_ws Sample.closed_channel_world "R1" "Which methods?"
            Sample.ws Sample.mgr (Some "gpt-4") "json")
  = inr "BERT and CRF".
Proof. split; reflexivity. Qed.

Example pull_run :
  received (drain Sample.world 5
              (GenCreated "R1" "Which methods?" (Some "gpt-4") "dataframe"))
  = ["I should look at the method row"].
Proof. reflexivity. Qed.

Example chat_name_given_to_completion_class :
  option_map (fun a => (llm_class (agent_llm (fst a)),
                        option_map (fun t => max_value_length (spec t))
                          (agent_toolkit (fst a))))
    match result (create_agent Sample.world "R1" (Some "gpt-4-0314") "json"
                    true None None) with
    | inl _ => None
    | inr a => Some a
    end
  = Some (OtherLLMClass "OpenAIChat", Some 4000%Z).
Proof. reflexivity. Qed.

Example json_document_lookup :
  option_map (PyDict.get "method")
    (PyDict.get "Paper B" (to_dict (T (T Sample.table))))
  = Some (Some (Val "CRF")).
Proof. reflexivity. Qed.

Example json_document_is_of_fetched_orientation :
  to_dict (T (T Sample.table))
  = [("Paper A", [("method", Val "BERT")]);
     ("Paper B", [("method", Val "CRF")])] /\
  to_dict (T Sample.table)
  = [("method", [("Paper A", Val "BERT"); ("Paper B", Val "CRF")])].
Proof. split; reflexivity. Qed.

Example template_length : String.length PROMPT_TEMPLATE = 768.
Proof. reflexivity. Qed.

(** * Further properties *)

(** ** Python dictionaries *)

Section PyDictFacts.
Context {V : Type}.

Let assign (d : dict string V) (kv : string * V) : dict string V :=
  PyDict.set (fst kv) (snd kv) d.

Lemma get_set_same (k : string) (v : V) (d : dict string V) :
  PyDict.get k (PyDict.set k v d) = Some v.
Proof.
  induction d as [| [k' v'] d IH]; cbn.
  - now rewrite String.eqb_refl.
  - destruct (String.eqb k k') eqn:E; cbn.
    + now rewrite String.eqb_refl.
    + now rewrite E.
Qed.

Lemma get_set_other (k k' : string) (v : V) (d : dict string V) :
  k <> k' -> PyDict.get k (PyDict.set k' v d) = PyDict.get k d.
Proof.
  intros Hne. apply String.eqb_neq in Hne.
  induction d as [| [k0 v0] d IH]; cbn.
  - now rewrite Hne.
  - destruct (String.eqb k' k0) eqn:E; cbn.
    + apply String.eqb_eq in E. subst k0. now rewrite Hne.
    + now rewrite IH.
Qed.

Lemma keys_set (k : string) (v : V) (d : dict string V) :
  map fst (PyDict.set k v d)
  = if existsb (String.eqb k) (map fst d) then map fst d
    else map fst d ++ [k].
Proof.
  induction d as [| [k' v'] d IH]; cbn; [reflexivity |].
  destruct (String.eqb k k') eqn:E; cbn.
  - apply String.eqb_eq in E. now subst.
  - rewrite IH. now destruct (existsb (String.eqb k) (map fst d)).
Qed.

Lemma existsb_eqb_In (k : string) (l : list string) :
  existsb (String.eqb k) l = true <-> In k l.
Proof.
  rewrite existsb_exists. split.
  - intros [x [Hx E]]. apply String.eqb_eq in E. now subst.
  - intros H. exists k. split; [assumption | apply String.eqb_refl].
Qed.

Lemma keys_set_In (k k' : string) (v : V) (d : dict string V) :
  In k (map fst (PyDict.set k' v d)) <-> k = k' \/ In k (map fst d).
Proof.
  rewrite keys_set.
  destruct (existsb (String.eqb k') (map fst d)) eqn:E.
  - apply existsb_eqb_In in E. split; [auto |].
    intros [-> | H]; assumption.
  - rewrite in_app_iff. cbn. intuition (subst; auto).
Qed.

Lemma keys_set_NoDup (k : string) (v : V) (d : dict string V) :
  NoDup (map fst d) -> NoDup (map fst (PyDict.set k v d)).
Proof.
  intros Hd. rewrite keys_set.
  destruct (existsb (String.eqb k) (map fst d)) eqn:E; [assumption |].
  apply NoDup_app; [assumption | repeat constructor; intros [] | ].
  intros x Hx [<- | []].
  apply existsb_eqb_In in Hx. congruence.
Qed.

Lemma get_assign_all_notin (k : string) (ps : list (string * V)) :
  forall d, ~ In k (map fst ps) ->
            PyDict.get k (fold_left assign ps d) = PyDict.get k d.
Proof.
  induction ps as [| [k' v'] ps IH]; intros d Hk; [reflexivity |].
  cbn in *. rewrite IH by tauto. apply get_set_other. intuition.
Qed.

(** After [dict(pairs)] a key holds the value of its last pair. *)
Lemma get_of_pairs_last (dflt : string * V) (ps : list (string * V)) :
  forall j,
    j < List.length ps ->
    (forall j', j < j' < List.length ps ->
                fst (nth j' ps dflt) <> fst (nth j ps dflt)) ->
    forall d,
      PyDict.get (fst (nth j ps dflt)) (fold_left assign ps d)
      = Some (snd (nth j ps dflt)).
Proof.
  induction ps as [| p ps IH]; intros j Hj Hlast d; [cbn in Hj; lia |].
  destruct j as [| j]; cbn [nth fold_left].
  - rewrite get_assign_all_notin.
    + apply get_set_same.
    + intros Hin. apply in_map_iff in Hin. destruct Hin as [q [Hq Hin]].
      apply (In_nth _ _ dflt) in Hin. destruct Hin as [n [Hn Hnth]].
      apply (Hlast (S n)); [cbn; lia |]. cbn. now rewrite Hnth.
  - apply IH; [cbn in Hj; lia |].
    intros j' Hj'. apply (Hlast (S j')). cbn. lia.
Qed.

Lemma keys_of_pairs_NoDup (ps : list (string * V)) :
  NoDup (map fst (PyDict.of_pairs ps)).
Proof.
  unfold PyDict.of_pairs.
  assert (H : forall d, NoDup (map fst d) ->
                        NoDup (map fst (fold_left assign ps d))).
  { induction ps as [| p ps IH]; intros d Hd; [assumption |].
    cbn. apply IH. now apply keys_set_NoDup. }
  apply (H []). constructor.
Qed.

Lemma keys_of_pairs_In (k : string) (ps : list (string * V)) :
  In k (map fst (PyDict.of_pairs ps)) <-> In k (map fst ps).
Proof.
  unfold PyDict.of_pairs.
  assert (H : forall d, In k (map fst (fold_left assign ps d))
                        <-> In k (map fst ps) \/ In k (map fst d)).
  { induction ps as [| p ps IH]; intros d; [cbn; tauto |].
    cbn [fold_left]. rewrite IH. unfold assign. rewrite keys_set_In.
    cbn [map In]. intuition. }
  etransitivity; [exact (H []) | cbn; tauto].
Qed.
End PyDictFacts.

(** ** Tables and their documents *)

Lemma nth_map_seq {A} (f : nat -> A) (n j : nat) (d : A) :
  j < n -> nth j (map f (seq 0 n)) d = f j.
Proof.
  intros Hj. rewrite (nth_indep _ d (f 0)) by now rewrite length_map, length_seq.
  rewrite map_nth. now rewrite seq_nth.
Qed.

Lemma nth_column_at (rows : list (list cell)) (i j : nat) :
  nth i (column_at rows j) NaN = nth j (nth i rows []) NaN.
Proof.
  unfold column_at.
  pose proof (map_nth (fun r : list cell => nth j r NaN) rows [] i) as E.
  cbv beta in E. rewrite <- E. now destruct j.
Qed.

Lemma T_cell_at (df : DataFrame) (i j : nat) :
  j < List.length (columns df) -> cell_at (T df) j i = cell_at df i j.
Proof.
  intros Hj. unfold cell_at. cbn [values T].
  rewrite nth_map_seq by assumption. apply nth_column_at.
Qed.

Lemma map_fst_combine_same_length {A B} (l : list A) :
  forall l' : list B,
    List.length l = List.length l' -> map fst (combine l l') = l.
Proof.
  induction l as [| a l IH]; intros [| b l'] H; try discriminate;
    [reflexivity |].
  cbn. f_equal. apply IH. now injection H.
Qed.

Lemma NoDup_nth_neq (l : list string) (i j : nat) :
  NoDup l -> i < List.length l -> j < List.length l -> i <> j ->
  nth i l "" <> nth j l "".
Proof.
  intros Hnd Hi Hj Hne E. apply Hne.
  now apply (proj1 (NoDup_nth l "") Hnd).
Qed.

(** A label that no later pair of [zip(labels, values)] repeats is mapped to
    the value at its position. *)
Lemma get_zip_last {V} (labels : list string) (vs : list V) (d : V)
  (j : nat) :
  List.length vs = List.length labels ->
  j < List.length labels ->
  (forall j', j < j' < List.length labels ->
              nth j' labels "" <> nth j labels "") ->
  PyDict.get (nth j labels "") (PyDict.of_pairs (combine labels vs))
  = Some (nth j vs d).
Proof.
  intros Hlen Hj Hlast. unfold PyDict.of_pairs.
  pose proof (get_of_pairs_last ("", d) (combine labels vs) j) as H.
  rewrite length_combine, Hlen, Nat.min_id in H.
  rewrite !combine_nth in H by (symmetry; exact Hlen).
  cbn [fst snd] in H. apply H; [assumption |].
  intros j' Hj'. rewrite combine_nth by (symmetry; exact Hlen).
  cbn [fst]. now apply Hlast.
Qed.

Lemma to_dict_get_last (df : DataFrame) (i j : nat) :
  well_formed df ->
  i < List.length (index df) ->
  j < List.length (columns df) ->
  (forall i', i < i' < List.length (index df) ->
              nth i' (index df) "" <> nth i (index df) "") ->
  (forall j', j < j' < List.length (columns df) ->
              nth j' (columns df) "" <> nth j (columns df) "") ->
  let series := series_to_dict (index df) (column_at (values df) j) in
  PyDict.get (nth j (columns df) "") (to_dict df) = Some series /\
  PyDict.get (nth i (index df) "") series = Some (cell_at df i j).
Proof.
  intros [Hrows _] Hi Hj Hlasti Hlastj series. split.
  - unfold to_dict.
    rewrite (get_zip_last _ _ (series_to_dict (index df) [])) with (j := j);
      try assumption.
    + now rewrite nth_map_seq.
    + now rewrite length_map, length_seq.
  - unfold series, series_to_dict.
    rewrite (get_zip_last _ _ NaN) with (j := i); try assumption.
    + now rewrite nth_column_at.
    + unfold column_at. now rewrite length_map.
Qed.

(** X1. Transposition is its own inverse on rectangular tables: it swaps the
    row and column labels, keeps the table rectangular, moves the cell of
    row [i] and column [j] to row [j] and column [i], and applied twice gives
    the table back. *)
Theorem transpose_round_trip (df : DataFrame) :
  well_formed df ->
  T (T df) = df /\
  well_formed (T df) /\
  index (T df) = columns df /\
  columns (T df) = index df /\
  (forall i j, j < List.length (columns df) ->
               cell_at (T df) j i = cell_at df i j).
Proof.
  intros Hwf. split; [now apply T_involutive |].
  split; [now apply T_well_formed |].
  split; [reflexivity |]. split; [reflexivity |].
  intros i j. apply T_cell_at.
Qed.

Lemma transpose_round_trip_witness :
  T (T Sample.table) = Sample.table /\
  cell_at (T Sample.table) 1 0 = Val "CRF".
Proof.
  assert (Hwf : well_formed Sample.table).
  { split; [reflexivity | repeat constructor]. }
  destruct (transpose_round_trip Sample.table Hwf) as (H & _ & _ & _ & Hc).
  split; [exact H |]. rewrite (Hc 0 1); [reflexivity | cbn; lia].
Defined.


(** X2. The JSON agent's document answers lookups by paper and property:
    once the LLM object is constructed, for a rectangular fetched table
    whose row labels are distinct and whose column labels are distinct, the
    entry under the label of column [j] holds, under the label of row [i],
    the fetched cell of row [i] and column [j]. *)
Theorem json_document_lookup_cell (w : World) comparison_id model agent_kind
  async_agent websocket ws_manager llm fetched (i j : nat) :
  make_llm w model = inr llm ->
  compare_dataframe w comparison_id = inr fetched ->
  well_formed fetched ->
  NoDup (index fetched) ->
  NoDup (columns fetched) ->
  agent_kind <> DATAFRAME_value w ->
  agent_kind = JSON_value w ->
  i < List.length (index fetched) ->
  j < List.length (columns fetched) ->
  exists agent handler toolkit series,
    result (create_agent w comparison_id model agent_kind async_agent
              websocket ws_manager) = inr (agent, handler) /\
    agent_toolkit agent = Some toolkit /\
    PyDict.get (nth j (columns fetched) "") (dict_ (spec toolkit))
    = Some series /\
    PyDict.get (nth i (index fetched) "") series = Some (cell_at fetched i j).
Proof.
  intros Hllm Hfetch Hwf Hni Hnc Hd Hj Hi Hjlt.
  rewrite create_agent_eq, Hllm. unfold result; cbn [snd]. rewrite Hfetch.
  cbv zeta. apply String.eqb_neq in Hd. rewrite Hd, Hj, String.eqb_refl.
  rewrite T_involutive by assumption.
  destruct (to_dict_get_last fetched i j) as [Hcol Hrow]; try assumption.
  - intros i' Hi'. apply NoDup_nth_neq; try assumption; lia.
  - intros j' Hj'. apply NoDup_nth_neq; try assumption; lia.
  - do 4 eexists. split; [reflexivity |]. split; [reflexivity |].
    split; [exact Hcol | exact Hrow].
Qed.

Lemma json_document_lookup_cell_witness :
  exists agent handler toolkit series,
    result (create_agent Sample.world "R1" (Some "gpt-3.5-turbo") "json"
              false None None)
    = inr (agent, handler) /\
    agent_toolkit agent = Some toolkit /\
    PyDict.get "Paper B" (dict_ (spec toolkit)) = Some series /\
    PyDict.get "method" series = Some (Val "CRF").
Proof.
  eapply (json_document_lookup_cell Sample.world "R1" (Some "gpt-3.5-turbo")
            "json" false None None _ Sample.table 0 1).
  - reflexivity.
  - reflexivity.
  - split; [reflexivity | repeat constructor].
  - repeat constructor. intros [].
  - repeat constructor; cbn; intuition discriminate.
  - discriminate.
  - reflexivity.
  - cbn. lia.
  - cbn. lia.
Defined.

(** X3. Once the LLM object is constructed, the top-level keys of the JSON
    agent's document are exactly the column labels of the fetched table;
    when a label is borne by several columns of a rectangular table, the
    document holds under it the cells of the last of them. *)
Theorem json_document_keys (w : World) comparison_id model agent_kind
  async_agent websocket ws_manager llm fetched :
  make_llm w model = inr llm ->
  compare_dataframe w comparison_id = inr fetched ->
  agent_kind <> DATAFRAME_value w ->
  agent_kind = JSON_value w ->
  exists agent handler toolkit,
    result (create_agent w comparison_id model agent_kind async_agent
              websocket ws_manager) = inr (agent, handler) /\
    agent_toolkit agent = Some toolkit /\
    (forall c, In c (map fst (dict_ (spec toolkit)))
               <-> In c (columns fetched)) /\
    (well_formed fetched ->
     forall j, j < List.length (columns fetched) ->
       (forall j', j < j' < List.length (columns fetched) ->
          nth j' (columns fetched) "" <> nth j (columns fetched) "") ->
       PyDict.get (nth j (columns fetched) "") (dict_ (spec toolkit))
       = Some (series_to_dict (index fetched)
                 (column_at (values fetched) j))).
Proof.
  intros Hllm Hfetch Hd Hj.
  rewrite create_agent_eq, Hllm. unfold result; cbn [snd]. rewrite Hfetch.
  cbv zeta. apply String.eqb_neq in Hd. rewrite Hd, Hj, String.eqb_refl.
  do 3 eexists. split; [reflexivity |]. split; [reflexivity |].
  cbn [spec dict_]. split.
  - intros c. unfold to_dict. rewrite keys_of_pairs_In.
    rewrite map_fst_combine_same_length; [reflexivity |].
    now rewrite length_map, length_seq.
  - intros Hwf j Hjlt Hlast. rewrite T_involutive by assumption.
    unfold to_dict.
    rewrite (get_zip_last _ _ (series_to_dict (index fetched) []))
      with (j := j); try assumption.
    + now rewrite nth_map_seq.
    + now rewrite length_map, length_seq.
Qed.

Lemma json_document_keys_witness :
  exists agent handler toolkit,
    result (create_agent Sample.world "R1" (Some "text-davinci-003") "json"
              true None None)
    = inr (agent, handler) /\
    agent_toolkit agent = Some toolkit /\
    (In "Paper B" (map fst (dict_ (spec toolkit)))).
Proof.
  destruct (json_document_keys Sample.world "R1" (Some "text-davinci-003")
              "json" true None None _ Sample.table eq_refl eq_refl)
    as (agent & handler & toolkit & H & Ht & Hkeys & _).
  - discriminate.
  - reflexivity.
  - exists agent, handler, toolkit. repeat split; try assumption.
    apply Hkeys. cbn. tauto.
Defined.

(** X4. The pandas agent reasons over the transposed table: once the LLM
    object is constructed and the table fetched, the agent of the
    [DATAFRAME] kind carries that LLM and a table whose row labels are the
    column labels of the fetched table and whose column labels are the
    fetched row labels, with the fetched cell of row [i] and column [j] in
    row [j] and column [i]; it is given no JSON toolkit and no execution
    budget. *)
Theorem dataframe_agent_table (w : World) comparison_id model agent_kind
  async_agent websocket ws_manager llm fetched :
  make_llm w model = inr llm ->
  compare_dataframe w comparison_id = inr fetched ->
  agent_kind = DATAFRAME_value w ->
  exists agent handler table,
    result (create_agent w comparison_id model agent_kind async_agent
              websocket ws_manager) = inr (agent, handler) /\
    agent_llm agent = llm /\
    agent_dataframe agent = Some table /\
    index table = columns fetched /\
    columns table = index fetched /\
    (forall i j, j < List.length (columns fetched) ->
                 cell_at table j i = cell_at fetched i j) /\
    agent_toolkit agent = None /\
    agent_max_execution_time agent = None.
Proof.
  intros Hllm Hfetch Hd.
  rewrite create_agent_eq, Hllm. unfold result; cbn [snd]. rewrite Hfetch.
  cbv zeta. rewrite Hd, String.eqb_refl.
  do 3 eexists. split; [reflexivity |]. split; [reflexivity |].
  split; [reflexivity |]. split; [reflexivity |]. split; [reflexivity |].
  split; [| split; reflexivity].
  intros i j. apply T_cell_at.
Qed.

Lemma dataframe_agent_table_witness :
  exists agent handler table,
    result (create_agent Sample.world "R1" (Some "gpt-4") "dataframe" true
              None None)
    = inr (agent, handler) /\
    agent_dataframe agent = Some table /\
    index table = ["Paper A"; "Paper B"].
Proof.
  destruct (dataframe_agent_table Sample.world "R1" (Some "gpt-4")
              "dataframe" true None None _ Sample.table eq_refl eq_refl
              eq_refl)
    as (agent & handler & table & H & _ & Ht & Hi & _).
  exists agent, handler, table. repeat split; assumption.
Defined.

Lemma create_agent_modes (w : World) comparison_id model agent_kind
  async_agent websocket ws_manager async_agent' websocket' ws_manager' :
  match result (create_agent w comparison_id model agent_kind async_agent
                  websocket ws_manager),
        result (create_agent w comparison_id model agent_kind async_agent'
                  websocket' ws_manager') with
  | inl e, inl e' => e = e'
  | inr (agent, _), inr (agent', _) =>
      without_callbacks agent = without_callbacks agent'
  | _, _ => False
  end.
Proof.
  rewrite !create_agent_eq. unfold result.
  destruct (make_llm w model) as [e | llm]; cbn [snd]; [reflexivity |].
  destruct (compare_dataframe w comparison_id) as [e | fetched];
    [reflexivity |].
  cbv zeta.
  destruct (String.eqb agent_kind (DATAFRAME_value w)); [reflexivity |].
  destruct (String.eqb agent_kind (JSON_value w)); reflexivity.
Qed.

(** X5. The delivery mode changes nothing but the callbacks: two calls of
    the builder for the same comparison, model and agent kind either both
    fail, with the same exception, or both return an agent, and the two
    agents are equal once their callback managers are taken away. *)
Theorem delivery_mode_only_changes_callbacks (w : World) comparison_id model
  agent_kind async_agent websocket ws_manager
  async_agent' websocket' ws_manager' :
  match result (create_agent w comparison_id model agent_kind async_agent
                  websocket ws_manager),
        result (create_agent w comparison_id model agent_kind async_agent'
                  websocket' ws_manager') with
  | inl e, inl e' => e = e'
  | inr (agent, _), inr (agent', _) =>
      without_callbacks agent = without_callbacks agent'
  | _, _ => False
  end.
Proof. apply create_agent_modes. Qed.

(** ** Traces of the query operations *)

Lemma filter_map_none {A B} (f : B -> bool) (g : A -> B) (l : list A) :
  (forall x, f (g x) = false) -> filter f (map g l) = [].
Proof.
  intros H. induction l as [| a l IH]; cbn; [reflexivity |].
  now rewrite H.
Qed.

Lemma filter_yields_then_await (f : event -> bool) (logs : list string) :
  (forall s, f (EvYield s) = false) -> f EvAwaitTask = false ->
  filter f (map EvYield logs ++ [EvAwaitTask]) = [].
Proof.
  intros Hy Ha. rewrite filter_app, filter_map_none by assumption.
  cbn. now rewrite Ha.
Qed.

Lemma filter_drain_suspended (w : World) (f : event -> bool) task pending
  pulls :
  (forall s, f (EvYield s) = false) -> f EvAwaitTask = false ->
  filter f (performed (drain w pulls (GenSuspended task pending))) = [].
Proof.
  intros Hy Ha. rewrite drain_suspended.
  destruct (Nat.leb pulls (List.length pending)); cbn [performed].
  - now apply filter_map_none.
  - now apply filter_yields_then_await.
Qed.

(** X6. Every query operation constructs the LLM before anything else and
    performs nothing at all if that raises.  Otherwise it starts with the
    fetch of the comparison and fetches nothing again; if it calls the
    reasoning backend at all, it does so once, as the very next step, and
    never a second time, whether the backend succeeds or fails. *)
Theorem one_fetch_then_at_most_one_backend_call (w : World) comparison_id
  query model agent_kind ws mgr pulls (t : list event) :
  t = trace (query_agent w comparison_id query model agent_kind) \/
  t = trace (query_agent_ws w comparison_id query ws mgr model agent_kind) \/
  t = performed (drain w (S pulls)
                   (GenCreated comparison_id query model agent_kind)) ->
  match make_llm w model with
  | inl _ => t = []
  | inr _ =>
      exists rest,
        t = EvFetch comparison_id :: rest /\
        fetches rest = 0 /\
        backend_calls (tl rest) = 0
  end.
Proof.
  intros Ht.
  pose proof (fun a s m =>
                create_agent_trace w comparison_id model agent_kind a s m)
    as Htrace.
  pose proof (fun a s m =>
                create_agent_success w comparison_id model agent_kind a s m)
    as Hok.
  destruct (make_llm w model) as [e0 | llm]; cbn [is_ok] in Htrace.
  - assert (Hfail : forall a s m,
               exists e,
                 result (create_agent w comparison_id model agent_kind a s m)
                 = inl e).
    { intros a s m.
      destruct (result (create_agent w comparison_id model agent_kind a s m))
        as [e | [agent handler]] eqn:E; [now exists e |].
      apply Hok in E. destruct E as (_ & _ & E). discriminate E. }
    destruct Ht as [-> | [-> | ->]].
    + rewrite query_agent_eq. destruct (Hfail false None None) as [e ->].
      apply Htrace.
    + rewrite query_agent_ws_eq.
      destruct (Hfail false (Some ws) (Some mgr)) as [e ->]. apply Htrace.
    + destruct (Hfail true None None) as [e E].
      rewrite (drain_created_failed _ _ _ _ _ _ _ E). apply Htrace.
  - destruct Ht as [-> | [-> | ->]].
    + rewrite query_agent_eq.
      destruct (result (create_agent w comparison_id model agent_kind false
                          None None)) as [e | [agent handler]].
      * unfold trace at 1. cbn [fst]. rewrite Htrace.
        eexists; (split; [reflexivity | split; reflexivity]).
      * eexists; (split; [reflexivity | split; reflexivity]).
    + rewrite query_agent_ws_eq.
      destruct (result (create_agent w comparison_id model agent_kind false
                          (Some ws) (Some mgr))) as [e | [agent handler]].
      * unfold trace at 1. cbn [fst]. rewrite Htrace.
        eexists; (split; [reflexivity | split; reflexivity]).
      * eexists; (split; [reflexivity |]).
        unfold fetches, backend_calls. cbn [filter is_fetch tl].
        now rewrite !filter_map_none.
    + destruct (result (create_agent w comparison_id model agent_kind true
                          None None)) as [e | [agent handler]] eqn:E.
      * rewrite (drain_created_failed _ _ _ _ _ _ _ E). cbn [performed].
        rewrite Htrace.
        eexists; (split; [reflexivity | split; reflexivity]).
      * rewrite (drain_created_built _ _ _ _ _ _ _ _ E). cbv zeta.
        eexists; (split; [reflexivity |]).
        unfold fetches, backend_calls. cbn [filter is_fetch tl performed].
        now rewrite !filter_drain_suspended.
Qed.

Lemma one_fetch_then_at_most_one_backend_call_witness :
  exists rest,
    trace (query_agent_ws Sample.failing_world "R1" "Which methods?"
             Sample.ws Sample.mgr (Some "gpt-4") "json")
    = EvFetch "R1" :: rest /\
    fetches rest = 0 /\ backend_calls (tl rest) = 0.
Proof.
  apply (one_fetch_then_at_most_one_backend_call Sample.failing_world "R1"
           "Which methods?" (Some "gpt-4") "json" Sample.ws Sample.mgr 0).
  right. left. reflexivity.
Defined.

(** X7. When the LLM object is constructed and the ORKG client then raises,
    every operation ends with the client's exception right after the fetch,
    whatever the agent kind and the delivery mode are: no agent is built and
    the reasoning backend is never called.  In pull mode the exception is
    raised by the first pull. *)
Theorem fetch_failure_is_final (w : World) comparison_id query model
  agent_kind async_agent websocket ws_manager ws mgr pulls llm e :
  make_llm w model = inr llm ->
  compare_dataframe w comparison_id = inl e ->
  create_agent w comparison_id model agent_kind async_agent
    websocket ws_manager = ([EvFetch comparison_id], inl e) /\
  query_agent w comparison_id query model agent_kind
  = ([EvFetch comparison_id], inl e) /\
  query_agent_ws w comparison_id query ws mgr model agent_kind
  = ([EvFetch comparison_id], inl e) /\
  drain w (S pulls) (GenCreated comparison_id query model agent_kind)
  = mkDrained [EvFetch comparison_id] [] (Some (Raised e)).
Proof.
  intros Hllm Hfetch.
  assert (Hc : forall a s m,
             create_agent w comparison_id model agent_kind a s m
             = ([EvFetch comparison_id], inl e)).
  { intros. rewrite create_agent_eq, Hllm. now rewrite Hfetch. }
  repeat split.
  - apply Hc.
  - rewrite query_agent_eq, Hc. reflexivity.
  - rewrite query_agent_ws_eq, Hc. reflexivity.
  - rewrite (drain_created_failed w comparison_id query model agent_kind e);
      now rewrite Hc.
Qed.

Lemma fetch_failure_is_final_witness :
  query_agent Offline.world "R1" "Which methods?" (Some "gpt-4") "json"
  = ([EvFetch "R1"], inl (RaisedBy "orkg" "connection refused")).
Proof.
  apply (fetch_failure_is_final Offline.world "R1" "Which methods?"
           (Some "gpt-4") "json" false None None Sample.ws Sample.mgr 0 _ _
           eq_refl eq_refl).
Defined.

(** ** What the pull query sends *)

Lemma sent_frames_filter (t : list event) :
  filter (fun ev => match ev with EvSend _ _ _ => true | _ => false end) t = []
  -> sent_frames t = [].
Proof.
  induction t as [| ev t IH]; [reflexivity |].
  destruct ev; cbn; try exact IH. discriminate.
Qed.

(** X8. The pull query binds the pull handler, so the callbacks of the
    background run reach no websocket: after any number of pulls, whatever
    the backend emits and however the query ends, no frame has been sent on
    any channel. *)
Theorem pull_mode_sends_no_frame (w : World) comparison_id query model
  agent_kind pulls :
  sent_frames (performed (drain w pulls
                            (GenCreated comparison_id query model
                               agent_kind))) = [].
Proof.
  destruct pulls as [| n]; [reflexivity |].
  destruct (result (create_agent w comparison_id model agent_kind true
                      None None)) as [e | [agent handler]] eqn:E.
  - rewrite (drain_created_failed _ _ _ _ _ _ _ E). cbn [performed].
    rewrite create_agent_trace. now destruct (is_ok (make_llm w model)).
  - rewrite (drain_created_built _ _ _ _ _ _ _ _ E). cbv zeta.
    cbn [performed sent_frames].
    apply sent_frames_filter. now apply filter_drain_suspended.
Qed.

(** ** The three delivery modes agree *)

(** X10. If the outcome of the backend does not depend on the callbacks
    bound to the agent, the three operations agree on how a query ends: the
    push query returns or raises exactly what the blocking query does, and
    whenever the pull sequence has ended, it has raised the blocking query's
    exception if there is one and ended normally otherwise. *)
Theorem outcome_independent_of_delivery_mode (w : World) comparison_id query
  ws mgr model agent_kind :
  (forall a p,
     outcome (execute w a p) = outcome (execute w (without_callbacks a) p)) ->
  result (query_agent_ws w comparison_id query ws mgr model agent_kind)
  = result (query_agent w comparison_id query model agent_kind) /\
  forall pulls,
    ending (drain w pulls (GenCreated comparison_id query model agent_kind))
    = None \/
    ending (drain w pulls (GenCreated comparison_id query model agent_kind))
    = Some match result (query_agent w comparison_id query model
                           agent_kind) with
           | inl e => Raised e
           | inr _ => StopAsyncIteration
           end.
Proof.
  intros Hind. rewrite query_agent_eq, query_agent_ws_eq.
  pose proof (create_agent_modes w comparison_id model agent_kind
                false None None false (Some ws) (Some mgr)) as Hpush.
  pose proof (create_agent_modes w comparison_id model agent_kind
                false None None true None None) as Hpull.
  destruct (result (create_agent w comparison_id model agent_kind false
                      None None)) as [e | [agent h]].
  - destruct (result (create_agent w comparison_id model agent_kind false
                        (Some ws) (Some mgr))) as [e1 | [agent1 h1]];
      [subst e1 | contradiction].
    split; [reflexivity |].
    destruct (result (create_agent w comparison_id model agent_kind true
                        None None)) as [e2 | [agent2 h2]] eqn:E2;
      [subst e2 | contradiction].
    intros [| n]; [now left | right].
    now rewrite (drain_created_failed _ _ _ _ _ _ _ E2).
  - destruct (result (create_agent w comparison_id model agent_kind false
                        (Some ws) (Some mgr))) as [e1 | [agent1 h1]];
      [contradiction |].
    destruct (result (create_agent w comparison_id model agent_kind true
                        None None)) as [e2 | [agent2 h2]] eqn:E2;
      [contradiction |].
    cbv zeta. unfold result, answer_of; cbn [snd].
    set (prompt := (PROMPT_TEMPLATE ++ query)%string).
    assert (H1 : outcome (execute w agent1 prompt)
                 = outcome (execute w agent prompt)).
    { now rewrite (Hind agent1), (Hind agent), Hpush. }
    assert (H2 : outcome (execute w agent2 prompt)
                 = outcome (execute w agent prompt)).
    { now rewrite (Hind agent2), (Hind agent), Hpull. }
    split; [now rewrite H1 |].
    intros [| n]; [now left |].
    rewrite (drain_created_built _ _ _ _ _ _ _ _ E2). cbv zeta.
    cbn [ending]. fold prompt. rewrite drain_suspended.
    destruct (Nat.leb (S n)
                (List.length (action_logs w (execute w agent2 prompt))));
      [now left | right].
    cbn [ending]. unfold ending_of. rewrite H2.
    now destruct (outcome (execute w agent prompt)).
Qed.

Lemma outcome_independent_of_delivery_mode_witness :
  result (query_agent_ws Sample.failing_world "R1" "Which methods?"
            Sample.ws Sample.mgr (Some "gpt-4") "dataframe")
  = result (query_agent Sample.failing_world "R1" "Which methods?"
              (Some "gpt-4") "dataframe") /\
  ending (drain Sample.failing_world 2
            (GenCreated "R1" "Which methods?" (Some "gpt-4") "dataframe"))
  = Some (Raised (RaisedBy "backend" "rate limit")).
Proof.
  destruct (outcome_independent_of_delivery_mode Sample.failing_world "R1"
              "Which methods?" Sample.ws Sample.mgr (Some "gpt-4")
              "dataframe") as [Hpush Hpull].
  - reflexivity.
  - split; [exact Hpush |].
    destruct (Hpull 2) as [H | H]; [discriminate H | exact H].
Defined.
